(** * Excel File Merger: the merge engine of [main.py]

    [main.py] is a Streamlit script.  Its logic is the body of the [try]
    block of [main]: two spreadsheets are loaded with pandas, the secondary
    table is deduplicated on the reference column, left-joined into the
    primary table, three counters are displayed, the merged table is
    written to a one-sheet workbook and the unmatched rows are shown.

    The embedding has three layers.
    - [cell], [DataFrame] and module [pd]: the pandas operations the script
      calls, as functions on tables.  A table is its list of column labels
      and its list of rows, each row holding one cell per column, the way a
      parsed sheet is laid out.  Operations that raise in pandas return
      [inl] of the exception.
    - [ui] and module [st]: the Streamlit calls of the script.  A run is the
      list of elements it renders, in order, together with how it ended
      (returned, raised, or stopped by [st.stop]).
    - [process] and [main]: the script itself, statement by statement.

    What is abstracted.  Cells are missing, integer numbers or strings;
    floating point numbers, booleans and dates are not represented, nor are
    column dtypes and the dtype compatibility check [merge] performs on the
    key columns.  Uploaded bytes are represented by what [pd.read_excel]
    makes of them, and the downloaded bytes by the workbook they encode.
    An expander is recorded by its label; the other layout containers
    ([st.columns], [st.spinner]) and the widgets outside the [try] block
    are not recorded. *)

From Stdlib Require Import String Ascii ZArith Bool Arith Lia DecimalString List.
Import ListNotations.
Local Open Scope string_scope.
Local Open Scope list_scope.

(** ** Cells *)

Inductive cell : Type :=
| NaN
| Num (z : Z)
| Str (s : string).

(** Equality of key values as the pandas hash tables see it: two missing
    values are the same key, otherwise values are equal when they have the
    same type and the same content. *)
Definition cell_eqb (a b : cell) : bool :=
  match a, b with
  | NaN, NaN => true
  | Num x, Num y => Z.eqb x y
  | Str s, Str t => String.eqb s t
  | _, _ => false
  end.

Definition isna (c : cell) : bool :=
  match c with NaN => true | _ => false end.

Definition notna (c : cell) : bool := negb (isna c).

(** ** Exceptions raised by the library calls *)

Inductive exn : Type :=
| ParseError (msg : string)
| UsecolsError (missing : list string)
| KeyError (key : string)
| IndexKeyError (missing : list string)
| MergeError (dups : list string).

Definition repr (s : string) : string := "'" ++ s ++ "'".

Definition repr_list (l : list string) : string :=
  "[" ++ String.concat ", " (map repr l) ++ "]".

(** [str(e)], for labels that [repr] prints between single quotes. *)
Definition str (e : exn) : string :=
  match e with
  | ParseError msg => msg
  | UsecolsError missing =>
      "Usecols do not match columns, columns expected but not found: "
      ++ repr_list missing
  | KeyError key => repr key
  | IndexKeyError missing => repr_list missing ++ " not in index"
  | MergeError dups =>
      "Passing 'suffixes' which cause duplicate columns {"
      ++ String.concat ", " (map repr dups) ++ "} is not allowed."
  end.

Definition str_nat (n : nat) : string :=
  NilEmpty.string_of_uint (Nat.to_uint n).

(** ** Tables *)

Definition Series : Type := list cell.

Record DataFrame : Type := mkDataFrame {
  columns : list string;
  rows : list (list cell)
}.

(** [df.shape[0]] and [df.shape[1]] *)
Definition shape0 (df : DataFrame) : nat := length (rows df).
Definition shape1 (df : DataFrame) : nat := length (columns df).

(** [label in df.columns] *)
Definition contains (cols : list string) (label : string) : bool :=
  existsb (String.eqb label) cols.

(** Position of a label among the columns; the first one if repeated. *)
Fixpoint get_loc (cols : list string) (label : string) : option nat :=
  match cols with
  | [] => None
  | c :: cols' =>
      if String.eqb c label then Some 0
      else option_map S (get_loc cols' label)
  end.

Definition at_col (i : nat) (r : list cell) : cell := nth i r NaN.

Definition remove_at {A : Type} (j : nat) (l : list A) : list A :=
  firstn j l ++ skipn (S j) l.

(** A parsed sheet is rectangular: every row holds one cell per column.
    Its header labels are distinct as well (the reader renames repeated
    headers), which the statements below write [NoDup (columns df)]. *)
Definition rectangular (df : DataFrame) : Prop :=
  Forall (fun r => length r = length (columns df)) (rows df).

(** An uploaded file, by what the spreadsheet reader makes of its bytes:
    rejected with a message, or the table of its first sheet. *)
Inductive UploadedFile : Type :=
| Malformed (msg : string)
| Spreadsheet (table : DataFrame).

Definition sheet : Type := (string * list (list cell))%type.
Definition workbook : Type := list sheet.

(** ** The pandas calls of the script *)

Module pd.

(** [pd.read_excel(file)] and [pd.read_excel(file, usecols=[...])].
    With [usecols] the reader raises when a requested label is not a
    header of the sheet, and otherwise keeps the requested columns in the
    order of the sheet. *)
Definition read_excel (file : UploadedFile) (usecols : option (list string))
  : exn + DataFrame :=
  match file with
  | Malformed msg => inl (ParseError msg)
  | Spreadsheet t =>
      match usecols with
      | None => inr t
      | Some cols =>
          match filter (fun c => negb (contains (columns t) c)) cols with
          | [] =>
              let keep :=
                filter (fun ic => contains cols (snd ic))
                       (combine (seq 0 (length (columns t))) (columns t)) in
              inr {| columns := map snd keep;
                     rows := map (fun r => map (fun ic => at_col (fst ic) r) keep)
                                 (rows t) |}
          | missing => inl (UsecolsError missing)
          end
      end
  end.

(** [df.head()] *)
Definition head (df : DataFrame) : DataFrame :=
  {| columns := columns df; rows := firstn 5 (rows df) |}.

(** Rows of [df.drop_duplicates(subset=label)] (keep='first'): a row is
    dropped when an earlier row holds the same key. *)
Fixpoint drop_duplicate_rows (i : nat) (seen : list cell) (rs : list (list cell))
  : list (list cell) :=
  match rs with
  | [] => []
  | r :: rs' =>
      if existsb (cell_eqb (at_col i r)) seen
      then drop_duplicate_rows i seen rs'
      else r :: drop_duplicate_rows i (at_col i r :: seen) rs'
  end.

Definition drop_duplicates (df : DataFrame) (subset : string) : exn + DataFrame :=
  match get_loc (columns df) subset with
  | None => inl (KeyError subset)
  | Some i =>
      inr {| columns := columns df;
             rows := drop_duplicate_rows i [] (rows df) |}
  end.

(** [Index.duplicated()]: marks every label already seen. *)
Fixpoint duplicated_from (seen l : list string) : list bool :=
  match l with
  | [] => []
  | x :: l' => contains seen x :: duplicated_from (x :: seen) l'
  end.

Definition duplicated (l : list string) : list bool := duplicated_from [] l.

(** Labels that became duplicates through the suffixes. *)
Definition suffix_dups (orig renamed : list string) : list string :=
  map fst
      (filter (fun p => fst (snd p) && negb (snd (snd p)))
              (combine renamed (combine (duplicated renamed) (duplicated orig)))).

(** Rows of the left join produced by one left row: one per right row
    with the same key, in the order of the right table, or the left row
    padded with missing values when there is none. *)
Definition join_row (i j width : nat) (right_rows : list (list cell))
  (l : list cell) : list (list cell) :=
  match filter (fun r => cell_eqb (at_col j r) (at_col i l)) right_rows with
  | [] => [l ++ repeat NaN width]
  | matches => map (fun r => l ++ remove_at j r) matches
  end.

(** [left.merge(right, on=on, how='left')], suffixes '_x' and '_y'. *)
Definition merge (left right : DataFrame) (on : string) : exn + DataFrame :=
  match get_loc (columns right) on, get_loc (columns left) on with
  | Some j, Some i =>
      let lcols := columns left in
      let rcols := remove_at j (columns right) in
      let to_rename c := contains lcols c && contains rcols c in
      let llabels := map (fun c => if to_rename c then (c ++ "_x")%string else c) lcols in
      let rlabels := map (fun c => if to_rename c then (c ++ "_y")%string else c) rcols in
      match suffix_dups lcols llabels ++ suffix_dups rcols rlabels with
      | [] =>
          inr {| columns := llabels ++ rlabels;
                 rows := flat_map (join_row i j (length rcols) (rows right))
                                  (rows left) |}
      | dups => inl (MergeError dups)
      end
  | _, _ => inl (KeyError on)
  end.

(** [df[label]] *)
Definition getitem (df : DataFrame) (label : string) : exn + Series :=
  match get_loc (columns df) label with
  | None => inl (KeyError label)
  | Some i => inr (map (at_col i) (rows df))
  end.

(** [s.notna()], [s.isna()] and [.sum()] of a boolean series *)
Definition notna (s : Series) : list bool := map notna s.
Definition isna (s : Series) : list bool := map isna s.
Definition sum (mask : list bool) : nat := length (filter (fun b => b) mask).

(** [df[mask]] *)
Definition getitem_mask (df : DataFrame) (mask : list bool) : DataFrame :=
  {| columns := columns df;
     rows := map fst (filter snd (combine (rows df) mask)) |}.

(** [df[[label, ...]]] *)
Definition getitem_list (df : DataFrame) (labels : list string) : exn + DataFrame :=
  match filter (fun c => negb (contains (columns df) c)) labels with
  | [] =>
      let loc c := match get_loc (columns df) c with Some i => i | None => 0 end in
      inr {| columns := labels;
             rows := map (fun r => map (fun c => at_col (loc c) r) labels)
                         (rows df) |}
  | missing => inl (IndexKeyError missing)
  end.

(** [pd.ExcelWriter(output, engine='openpyxl')] starts from a workbook
    without sheets; [df.to_excel(writer, index=..., sheet_name=...)] adds
    one sheet: the header row, then the rows of the table, each preceded
    by its position when [index] is set. *)
Definition ExcelWriter : workbook := [].

Definition to_excel (df : DataFrame) (writer : workbook) (index : bool)
  (sheet_name : string) : workbook :=
  let header := map Str (columns df) in
  let grid :=
    if index
    then (NaN :: header)
         :: map (fun ir => Num (Z.of_nat (fst ir)) :: snd ir)
                (combine (seq 0 (length (rows df))) (rows df))
    else header :: rows df in
  writer ++ [(sheet_name, grid)].

End pd.

(** ** The Streamlit calls of the script *)

(** What a call renders on the page. *)
Inductive element : Type :=
| Subheader (body : string)
| Info (body : string)
| Error (body : string)
| Expander (label : string)
| Dataframe (data : DataFrame)
| Metric (label : string) (value : nat)
| DownloadButton (label : string) (data : workbook) (file_name mime : string).

(** How a piece of the script ends: it returns a value, raises an
    exception, or is halted by [st.stop], which no [except Exception]
    clause intercepts. *)
Inductive outcome (A : Type) : Type :=
| Return (a : A)
| Raise (e : exn)
| Stopped.

Arguments Return {A} a.
Arguments Raise {A} e.
Arguments Stopped {A}.

(** A run: the elements rendered so far, in order, and the outcome. *)
Definition ui (A : Type) : Type := (list element * outcome A)%type.

Definition ret {A : Type} (a : A) : ui A := ([], Return a).

Definition bind {A B : Type} (m : ui A) (k : A -> ui B) : ui B :=
  let (w, o) := m in
  match o with
  | Return a => let (w', o') := k a in (w ++ w', o')
  | Raise e => (w, Raise e)
  | Stopped => (w, Stopped)
  end.

Notation "x <- m ;; k" := (bind m (fun x => k))
  (at level 61, m at next level, right associativity).
Notation "m ;; k" := (bind m (fun _ => k))
  (at level 61, right associativity).

(** A library call: its exception, if any, propagates. *)
Definition call {A : Type} (r : exn + A) : ui A :=
  match r with
  | inl e => ([], Raise e)
  | inr a => ([], Return a)
  end.

(** [try: body  except Exception as e: handler e] *)
Definition try_except {A : Type} (body : ui A) (handler : exn -> ui A) : ui A :=
  let (w, o) := body in
  match o with
  | Raise e => let (w', o') := handler e in (w ++ w', o')
  | _ => (w, o)
  end.

Definition rendered {A : Type} (m : ui A) : list element := fst m.
Definition result {A : Type} (m : ui A) : outcome A := snd m.

(** The run [m] after the elements [w] have been rendered. *)
Definition prepend {A : Type} (w : list element) (m : ui A) : ui A :=
  (w ++ fst m, snd m).

Module st.

Definition render (e : element) : ui unit := ([e], Return tt).

Definition subheader (body : string) : ui unit := render (Subheader body).
Definition info (body : string) : ui unit := render (Info body).
Definition error (body : string) : ui unit := render (Error body).
Definition expander (label : string) : ui unit := render (Expander label).
Definition dataframe (data : DataFrame) : ui unit := render (Dataframe data).
Definition metric (label : string) (value : nat) : ui unit :=
  render (Metric label value).
Definition download_button (label : string) (data : workbook)
  (file_name mime : string) : ui unit :=
  render (DownloadButton label data file_name mime).
Definition stop : ui unit := ([], Stopped).

End st.

(** ** The script *)

(** The body of the [try] block of [main] (lines 47 to 126). *)
Definition process (file_a file_b : UploadedFile)
  (merge_column target_column : string) : ui unit :=
  df_a <- call (pd.read_excel file_a None) ;;
  df_b <- call (pd.read_excel file_b (Some [merge_column; target_column])) ;;
  st.subheader "📋 File Information" ;;
  st.info ("**File A:** " ++ str_nat (shape0 df_a) ++ " rows, "
           ++ str_nat (shape1 df_a) ++ " columns") ;;
  st.expander "Preview File A" ;;
  st.dataframe (pd.head df_a) ;;
  st.info ("**File B:** " ++ str_nat (shape0 df_b) ++ " rows, "
           ++ str_nat (shape1 df_b) ++ " columns") ;;
  st.expander "Preview File B" ;;
  st.dataframe (pd.head df_b) ;;
  (if negb (contains (columns df_a) merge_column)
   then st.error ("Column '" ++ merge_column ++ "' not found in File A") ;;
        st.stop
   else ret tt) ;;
  (if negb (contains (columns df_b) merge_column)
   then st.error ("Column '" ++ merge_column ++ "' not found in File B") ;;
        st.stop
   else ret tt) ;;
  (if negb (contains (columns df_b) target_column)
   then st.error ("Column '" ++ target_column ++ "' not found in File B") ;;
        st.stop
   else ret tt) ;;
  df_b_clean <- call (pd.drop_duplicates df_b merge_column) ;;
  merged <- call (pd.merge df_a df_b_clean merge_column) ;;
  st.subheader "✅ Merge Results" ;;
  st.metric "Total Rows" (shape0 merged) ;;
  target <- call (pd.getitem merged target_column) ;;
  let matched_count := pd.sum (pd.notna target) in
  st.metric "Matched Records" matched_count ;;
  target <- call (pd.getitem merged target_column) ;;
  let unmatched_count := pd.sum (pd.isna target) in
  st.metric "Unmatched Records" unmatched_count ;;
  st.subheader "📊 Merged Data Preview" ;;
  st.dataframe merged ;;
  st.subheader "💾 Download Results" ;;
  let output := pd.to_excel merged pd.ExcelWriter false "Merged_Data" in
  st.download_button "📥 Download Games_State.xlsx" output "Games_State.xlsx"
    "application/vnd.openxmlformats-officedocument.spreadsheetml.sheet" ;;
  if Nat.ltb 0 unmatched_count
  then
    st.expander ("⚠️ View " ++ str_nat unmatched_count ++ " Unmatched Records") ;;
    target <- call (pd.getitem merged target_column) ;;
    let unmatched := pd.getitem_mask merged (pd.isna target) in
    view <- call (pd.getitem_list unmatched
                    ([merge_column]
                     ++ filter (fun col => negb (String.eqb col target_column))
                               (columns merged))) ;;
    st.dataframe view
  else ret tt.

(** The [except] clause (lines 128 to 130). *)
Definition on_exception (e : exn) : ui unit :=
  st.error ("An error occurred: " ++ str e) ;;
  st.info "Please make sure your files are valid Excel files and contain the specified columns.".

Definition is_none {A : Type} (o : option A) : bool :=
  match o with None => true | Some _ => false end.

(** The processing part of [main] (lines 45 to 133): [file_a] and [file_b]
    are the values of the two uploaders, [merge_column] and
    [target_column] those of the two text inputs, [start_processing] that
    of the button. *)
Definition main (file_a file_b : option UploadedFile)
  (merge_column target_column : string) (start_processing : bool) : ui unit :=
  match start_processing, file_a, file_b with
  | true, Some a, Some b =>
      try_except (process a b merge_column target_column) on_exception
  | _, _, _ =>
      if is_none file_a || is_none file_b
      then st.info "👆 Please upload both files to enable processing"
      else ret tt
  end.

(** ** The scenario of the specification *)

Definition P0 : DataFrame :=
  {| columns := ["email"; "name"];
     rows := [[Str "a@x.com"; Str "A"]; [Str "b@x.com"; Str "B"]] |}.

Definition S0 : DataFrame :=
  {| columns := ["email"; "state"];
     rows := [[Str "a@x.com"; Str "CA"]; [Str "a@x.com"; Str "NY"];
              [Str "c@x.com"; Str "TX"]] |}.

(** ** The runs of the script

    What each block of the [try] body renders, and the ways a run can
    go.  These are not part of the script: [main_run] below proves that
    every run of [main] on two uploaded files is one of them. *)

(** Lines 53 to 64. *)
Definition file_information (df_a df_b : DataFrame) : list element :=
  [Subheader "📋 File Information";
   Info ("**File A:** " ++ str_nat (shape0 df_a) ++ " rows, "
         ++ str_nat (shape1 df_a) ++ " columns");
   Expander "Preview File A";
   Dataframe (pd.head df_a);
   Info ("**File B:** " ++ str_nat (shape0 df_b) ++ " rows, "
         ++ str_nat (shape1 df_b) ++ " columns");
   Expander "Preview File B";
   Dataframe (pd.head df_b)].

(** Lines 88 to 120. *)
Definition merge_results (merged : DataFrame) (matched_count unmatched_count : nat)
  : list element :=
  [Subheader "✅ Merge Results";
   Metric "Total Rows" (shape0 merged);
   Metric "Matched Records" matched_count;
   Metric "Unmatched Records" unmatched_count;
   Subheader "📊 Merged Data Preview";
   Dataframe merged;
   Subheader "💾 Download Results";
   DownloadButton "📥 Download Games_State.xlsx"
     (pd.to_excel merged pd.ExcelWriter false "Merged_Data")
     "Games_State.xlsx"
     "application/vnd.openxmlformats-officedocument.spreadsheetml.sheet"].

(** Lines 129 and 130. *)
Definition error_report (e : exn) : list element :=
  [Error ("An error occurred: " ++ str e);
   Info "Please make sure your files are valid Excel files and contain the specified columns."].

(** The table of line 126. *)
Definition unmatched_view (merged : DataFrame) (merge_column target_column : string)
  (target : Series) : exn + DataFrame :=
  pd.getitem_list (pd.getitem_mask merged (pd.isna target))
    ([merge_column]
     ++ filter (fun col => negb (String.eqb col target_column)) (columns merged)).

(** Lines 123 to 126. *)
Definition unmatched_records (merged : DataFrame) (merge_column target_column : string)
  (target : Series) : list element :=
  let unmatched_count := pd.sum (pd.isna target) in
  if Nat.ltb 0 unmatched_count
  then Expander ("⚠️ View " ++ str_nat unmatched_count ++ " Unmatched Records")
       :: match unmatched_view merged merge_column target_column target with
          | inr view => [Dataframe view]
          | inl e => error_report e
          end
  else [].

Inductive run (df_a : DataFrame) (file_b : UploadedFile)
  (merge_column target_column : string) : ui unit -> Prop :=
| run_load_failed (e : exn) :
    pd.read_excel file_b (Some [merge_column; target_column]) = inl e ->
    run df_a file_b merge_column target_column (error_report e, Return tt)
| run_missing_in_A (df_b : DataFrame) :
    pd.read_excel file_b (Some [merge_column; target_column]) = inr df_b ->
    contains (columns df_a) merge_column = false ->
    run df_a file_b merge_column target_column
      (file_information df_a df_b
       ++ [Error ("Column '" ++ merge_column ++ "' not found in File A")],
       Stopped)
| run_merge_failed (df_b df_b_clean : DataFrame) (e : exn) :
    pd.read_excel file_b (Some [merge_column; target_column]) = inr df_b ->
    contains (columns df_a) merge_column = true ->
    pd.drop_duplicates df_b merge_column = inr df_b_clean ->
    pd.merge df_a df_b_clean merge_column = inl e ->
    run df_a file_b merge_column target_column
      (file_information df_a df_b ++ error_report e, Return tt)
| run_target_absent (df_b df_b_clean merged : DataFrame) (e : exn) :
    pd.read_excel file_b (Some [merge_column; target_column]) = inr df_b ->
    contains (columns df_a) merge_column = true ->
    pd.drop_duplicates df_b merge_column = inr df_b_clean ->
    pd.merge df_a df_b_clean merge_column = inr merged ->
    pd.getitem merged target_column = inl e ->
    run df_a file_b merge_column target_column
      (file_information df_a df_b
       ++ [Subheader "✅ Merge Results"; Metric "Total Rows" (shape0 merged)]
       ++ error_report e,
       Return tt)
| run_merged (df_b df_b_clean merged : DataFrame) (target : Series) :
    pd.read_excel file_b (Some [merge_column; target_column]) = inr df_b ->
    contains (columns df_a) merge_column = true ->
    pd.drop_duplicates df_b merge_column = inr df_b_clean ->
    pd.merge df_a df_b_clean merge_column = inr merged ->
    pd.getitem merged target_column = inr target ->
    run df_a file_b merge_column target_column
      (file_information df_a df_b
       ++ merge_results merged (pd.sum (pd.notna target)) (pd.sum (pd.isna target))
       ++ unmatched_records merged merge_column target_column target,
       Return tt).

(** Keys of both types: the number 5 and the string made of the digit 5. *)
Definition P5 : DataFrame :=
  {| columns := ["id"; "name"];
     rows := [[Num 5; Str "A"]; [Str "5"; Str "B"]; [Num 6; Str "C"]] |}.

Definition S5 : DataFrame :=
  {| columns := ["id"; "state"];
     rows := [[Str "5"; Str "TX"]; [Num 5; Str "CA"]; [Str "6"; Str "NY"]] |}.

(** Primary tables that already hold a column named like the target. *)
Definition E1 : DataFrame :=
  {| columns := ["email"; "state"]; rows := [] |}.

Definition P1 : DataFrame :=
  {| columns := ["email"; "state"]; rows := [[Str "a@x.com"; Str "WA"]] |}.

(** An empty primary table without it. *)
Definition E0 : DataFrame :=
  {| columns := ["email"; "name"]; rows := [] |}.

(** A secondary sheet without the target column. *)
Definition S1 : DataFrame :=
  {| columns := ["email"; "city"];
     rows := [[Str "a@x.com"; Str "Reno"]] |}.

(** ** The value the script adds to a row

    For a row [l] of the primary table whose reference cell is at
    position [i]: the cell at position [jtB] of the first row of the
    secondary sheet [B] whose cell at position [jB] holds the same value,
    and a missing value when there is no such row. *)
Definition looked_up (B : DataFrame) (i jB jtB : nat) (l : list cell) : cell :=
  match find (fun r => cell_eqb (at_col jB r) (at_col i l)) (rows B) with
  | Some r => at_col jtB r
  | None => NaN
  end.

(** Elements that report an error. *)
Definition is_error (x : element) : bool :=
  match x with Error _ => true | _ => false end.

(** ** Deduplicate, in the words of the specification *)

(** Row number [n] is the first-encountered row of its key when no row
    before it, in the original order, holds the same key. *)
Definition first_encountered (i : nat) (rs : list (list cell))
  (nr : nat * list cell) : bool :=
  negb (existsb (fun r' => cell_eqb (at_col i r') (at_col i (snd nr)))
                (firstn (fst nr) rs)).

(** Deduplicate keeps the first-encountered rows, in the original order. *)
Definition Deduplicate (i : nat) (rs : list (list cell)) : list (list cell) :=
  map snd (filter (first_encountered i rs) (combine (seq 0 (length rs)) rs)).

(** * Properties *)

(** ** Cells and labels *)

Lemma cell_eqb_eq (a b : cell) : cell_eqb a b = true <-> a = b.
Proof.
  destruct a, b; simpl; split; intro H;
    try discriminate; try reflexivity.
  - apply Z.eqb_eq in H. now subst.
  - injection H as ->. apply Z.eqb_refl.
  - apply String.eqb_eq in H. now subst.
  - injection H as ->. apply String.eqb_refl.
Qed.

Lemma cell_eqb_refl (a : cell) : cell_eqb a a = true.
Proof. now apply cell_eqb_eq. Qed.

Lemma cell_eqb_neq (a b : cell) : cell_eqb a b = false <-> a <> b.
Proof.
  rewrite <- cell_eqb_eq. destruct (cell_eqb a b); split; congruence.
Qed.

Lemma cell_eqb_sym (a b : cell) : cell_eqb a b = cell_eqb b a.
Proof.
  apply Bool.eq_iff_eq_true. rewrite !cell_eqb_eq. split; congruence.
Qed.

Lemma existsb_cell_In (v : cell) (seen : list cell) :
  existsb (cell_eqb v) seen = true <-> In v seen.
Proof.
  rewrite existsb_exists. split.
  - intros [x [Hx E]]. apply cell_eqb_eq in E. now subst.
  - intro H. exists v. split; [assumption | apply cell_eqb_refl].
Qed.

Lemma contains_In (cols : list string) (c : string) :
  contains cols c = true <-> In c cols.
Proof.
  unfold contains. rewrite existsb_exists. split.
  - intros [x [Hx E]]. apply String.eqb_eq in E. now subst.
  - intro H. exists c. split; [assumption | apply String.eqb_refl].
Qed.

Lemma contains_not_In (cols : list string) (c : string) :
  contains cols c = false <-> ~ In c cols.
Proof.
  rewrite <- contains_In. destruct (contains cols c); split; congruence.
Qed.

Lemma get_loc_In (cols : list string) (c : string) :
  In c cols -> exists i, get_loc cols c = Some i.
Proof.
  induction cols as [| x cols IH]; simpl; [contradiction |].
  intros [-> | H].
  - rewrite String.eqb_refl. now exists 0.
  - destruct (String.eqb x c); [now exists 0 |].
    destruct (IH H) as [i ->]. now exists (S i).
Qed.

Lemma get_loc_nth (cols : list string) (c : string) (i : nat) :
  get_loc cols c = Some i -> nth_error cols i = Some c.
Proof.
  revert i. induction cols as [| x cols IH]; simpl; intros i H; [discriminate |].
  destruct (String.eqb x c) eqn:E.
  - injection H as <-. apply String.eqb_eq in E. now subst.
  - destruct (get_loc cols c) as [k |]; [| discriminate].
    injection H as <-. simpl. now apply IH.
Qed.

Lemma get_loc_Some_In (cols : list string) (c : string) (i : nat) :
  get_loc cols c = Some i -> In c cols.
Proof. intro H. apply get_loc_nth in H. eapply nth_error_In, H. Qed.

Lemma get_loc_None (cols : list string) (c : string) :
  get_loc cols c = None <-> ~ In c cols.
Proof.
  split.
  - intros H Hin. destruct (get_loc_In _ _ Hin) as [i E]. congruence.
  - intro H. destruct (get_loc cols c) as [i |] eqn:E; [| reflexivity].
    exfalso. apply H. eapply get_loc_Some_In, E.
Qed.

(** ** drop_duplicates *)

Section DropDuplicates.

Variable i : nat.

Lemma existsb_key_In (v : cell) (pre : list (list cell)) :
  existsb (fun r' => cell_eqb (at_col i r') v) pre = true <-> In v (map (at_col i) pre).
Proof.
  rewrite existsb_exists, in_map_iff. split.
  - intros [r [Hr E]]. apply cell_eqb_eq in E. now exists r.
  - intros [r [E Hr]]. exists r. split; [assumption |].
    now apply cell_eqb_eq.
Qed.

(** The rows kept are those whose key was not seen, in order. *)
Lemma drop_duplicate_rows_first_encountered (rs pre : list (list cell))
  (seen : list cell) :
  (forall v, In v seen <-> In v (map (at_col i) pre)) ->
  pd.drop_duplicate_rows i seen rs
  = map snd (filter (first_encountered i (pre ++ rs))
                    (combine (seq (length pre) (length rs)) rs)).
Proof.
  revert pre seen.
  induction rs as [| r rs IH]; intros pre seen Hseen; [reflexivity |].
  cbn [pd.drop_duplicate_rows length seq combine filter].
  assert (E : first_encountered i (pre ++ r :: rs) (length pre, r)
              = negb (existsb (cell_eqb (at_col i r)) seen)).
  { unfold first_encountered. cbn [fst snd].
    rewrite firstn_app, firstn_all, Nat.sub_diag. cbn [firstn].
    rewrite app_nil_r. f_equal.
    apply Bool.eq_iff_eq_true.
    rewrite (existsb_key_In (at_col i r) pre), existsb_cell_In.
    symmetry. apply Hseen. }
  rewrite E.
  replace (pre ++ r :: rs) with ((pre ++ [r]) ++ rs)
    by (rewrite <- app_assoc; reflexivity).
  replace (S (length pre)) with (length (pre ++ [r]))
    by (rewrite length_app; simpl; lia).
  destruct (existsb (cell_eqb (at_col i r)) seen) eqn:Hin; cbn [negb map snd].
  - apply IH. intro v. rewrite map_app, in_app_iff, Hseen. cbn.
    apply existsb_cell_In in Hin. apply Hseen in Hin.
    split; [tauto |]. intros [H | [<- | []]]; assumption.
  - f_equal. apply IH. intro v. rewrite map_app, in_app_iff. cbn.
    rewrite Hseen. tauto.
Qed.

Lemma drop_duplicate_rows_Deduplicate (rs : list (list cell)) :
  pd.drop_duplicate_rows i [] rs = Deduplicate i rs.
Proof.
  apply (drop_duplicate_rows_first_encountered rs [] []).
  intro v. reflexivity.
Qed.

(** Among the rows holding a given key, exactly the first one is kept. *)
Lemma filter_drop_duplicate_rows (v : cell) (rs : list (list cell))
  (seen : list cell) :
  filter (fun r => cell_eqb (at_col i r) v) (pd.drop_duplicate_rows i seen rs)
  = if existsb (cell_eqb v) seen then []
    else firstn 1 (filter (fun r => cell_eqb (at_col i r) v) rs).
Proof.
  revert seen. induction rs as [| r rs IH]; intro seen.
  - simpl. now destruct (existsb (cell_eqb v) seen).
  - cbn [pd.drop_duplicate_rows].
    destruct (existsb (cell_eqb (at_col i r)) seen) eqn:Hin.
    + rewrite IH. cbn [filter].
      destruct (cell_eqb (at_col i r) v) eqn:E; [| reflexivity].
      apply cell_eqb_eq in E. subst v. now rewrite Hin.
    + cbn [filter]. rewrite IH. cbn [existsb].
      rewrite (cell_eqb_sym v (at_col i r)).
      destruct (cell_eqb (at_col i r) v) eqn:E; cbn [orb].
      * apply cell_eqb_eq in E. subst v. rewrite Hin. reflexivity.
      * reflexivity.
Qed.

Lemma drop_duplicate_rows_fresh (rs : list (list cell)) (seen : list cell) :
  forall r, In r (pd.drop_duplicate_rows i seen rs) -> ~ In (at_col i r) seen.
Proof.
  revert seen. induction rs as [| r0 rs IH]; intros seen r; simpl; [tauto |].
  destruct (existsb (cell_eqb (at_col i r0)) seen) eqn:Hin.
  - apply IH.
  - intros [<- | H].
    + intro Hk. apply existsb_cell_In in Hk.  congruence.
    + intro Hk. apply (IH _ _ H). now right.
Qed.

Lemma drop_duplicate_rows_NoDup (rs : list (list cell)) (seen : list cell) :
  NoDup (map (at_col i) (pd.drop_duplicate_rows i seen rs)).
Proof.
  revert seen. induction rs as [| r rs IH]; intro seen; simpl; [constructor |].
  destruct (existsb (cell_eqb (at_col i r)) seen); [apply IH |].
  simpl. constructor; [| apply IH].
  rewrite in_map_iff. intros [r' [E H]].
  apply drop_duplicate_rows_fresh in H. apply H. left. now rewrite E.
Qed.

(** Rows with distinct unseen keys are all kept. *)
Lemma drop_duplicate_rows_id (rs : list (list cell)) (seen : list cell) :
  NoDup (map (at_col i) rs) -> (forall r, In r rs -> ~ In (at_col i r) seen) ->
  pd.drop_duplicate_rows i seen rs = rs.
Proof.
  revert seen. induction rs as [| r rs IH]; intros seen Hnd Hfresh; [reflexivity |].
  simpl. inversion Hnd as [| k ks Hk Hks]; subst.
  destruct (existsb (cell_eqb (at_col i r)) seen) eqn:Hin.
  - apply existsb_cell_In in Hin. exfalso. apply (Hfresh r); [now left | exact Hin].
  - f_equal. apply IH; [assumption |].
    intros r' Hr' [E | Hs].
    + apply Hk. rewrite in_map_iff. exists r'. split; [now symmetry | assumption].
    + apply (Hfresh r'); [now right | assumption].
Qed.

Lemma drop_duplicate_rows_idempotent (rs : list (list cell)) :
  pd.drop_duplicate_rows i [] (pd.drop_duplicate_rows i [] rs)
  = pd.drop_duplicate_rows i [] rs.
Proof.
  apply drop_duplicate_rows_id; [apply drop_duplicate_rows_NoDup |].
  intros r _ [].
Qed.

(** At most one row of a table with distinct keys holds a given key. *)
Lemma filter_key_NoDup (v : cell) (rs : list (list cell)) :
  NoDup (map (at_col i) rs) ->
  length (filter (fun r => cell_eqb (at_col i r) v) rs) <= 1.
Proof.
  induction rs as [| r rs IH]; intro Hnd; simpl; [lia |].
  inversion Hnd as [| k ks Hk Hks]; subst.
  destruct (cell_eqb (at_col i r) v) eqn:E; [| now apply IH].
  apply cell_eqb_eq in E. subst v.
  assert (Hnil : filter (fun r' => cell_eqb (at_col i r') (at_col i r)) rs = []).
  { destruct (filter (fun r' => cell_eqb (at_col i r') (at_col i r)) rs) as [| x l] eqn:F;
      [reflexivity |].
    exfalso. apply Hk.
    assert (Hx : In x (filter (fun r' => cell_eqb (at_col i r') (at_col i r)) rs))
      by (rewrite F; now left).
    apply filter_In in Hx. destruct Hx as [Hx Ex].
    apply cell_eqb_eq in Ex. rewrite <- Ex. now apply in_map. }
  rewrite Hnil. simpl. lia.
Qed.

End DropDuplicates.

(** ** merge *)

Lemma filter_all_false {A : Type} (f : A -> bool) (l : list A) :
  (forall x, In x l -> f x = false) -> filter f l = [].
Proof.
  induction l as [| x l IH]; intro H; simpl; [reflexivity |].
  rewrite (H x (or_introl eq_refl)). apply IH.
  intros y Hy. apply H. now right.
Qed.

Lemma map_id_in {A : Type} (f : A -> A) (l : list A) :
  (forall x, In x l -> f x = x) -> map f l = l.
Proof.
  induction l as [| x l IH]; intro H; simpl; [reflexivity |].
  rewrite (H x (or_introl eq_refl)). f_equal. apply IH.
  intros y Hy. apply H. now right.
Qed.

Lemma in_combine_same {A : Type} (d : list A) (a b : A) :
  In (a, b) (combine d d) -> a = b.
Proof.
  induction d as [| x d IH]; simpl; [contradiction |].
  intros [E | H]; [congruence | now apply IH].
Qed.

(** Without renaming no label becomes a duplicate. *)
Lemma suffix_dups_same (l : list string) : pd.suffix_dups l l = [].
Proof.
  unfold pd.suffix_dups. rewrite filter_all_false; [reflexivity |].
  intros [c [a b]] H. apply in_combine_r in H.
  apply in_combine_same in H. subst b. cbn. now destruct a.
Qed.

Lemma In_remove_at {A : Type} (j : nat) (l : list A) (c : A) :
  In c (remove_at j l) -> In c l.
Proof.
  revert j. induction l as [| x l IH]; intro j.
  - unfold remove_at. now destruct j.
  - destruct j as [| j]; unfold remove_at; cbn.
    + now right.
    + intros [-> | H]; [now left | right; now apply (IH j)].
Qed.

Lemma In_remove_at_NoDup {A : Type} (j : nat) (l : list A) (k c : A) :
  NoDup l -> nth_error l j = Some k -> In c (remove_at j l) -> c <> k.
Proof.
  revert j. induction l as [| x l IH]; intros j Hnd Hj Hc.
  - destruct j; discriminate.
  - inversion Hnd as [| y ys Hx Hl]; subst. destruct j as [| j].
    + injection Hj as ->. unfold remove_at in Hc. cbn in Hc.
      intros ->. contradiction.
    + cbn in Hj. unfold remove_at in Hc. cbn in Hc.
      destruct Hc as [-> | Hc].
      * intros ->. apply Hx. eapply nth_error_In, Hj.
      * now apply (IH j).
Qed.

(** With at most one right row per key, a left row yields one row, which
    starts with the left row itself. *)
Lemma join_row_single (i j width : nat) (right_rows : list (list cell))
  (l : list cell) :
  NoDup (map (at_col j) right_rows) ->
  exists tail, pd.join_row i j width right_rows l = [l ++ tail].
Proof.
  intro Hnd. unfold pd.join_row.
  pose proof (filter_key_NoDup j (at_col i l) right_rows Hnd) as Hle.
  destruct (filter (fun r => cell_eqb (at_col j r) (at_col i l)) right_rows)
    as [| r [| r' rs]].
  - now exists (repeat NaN width).
  - now exists (remove_at j r).
  - simpl in Hle. lia.
Qed.

Lemma join_rows_length (i j width : nat) (right_rows left_rows : list (list cell)) :
  NoDup (map (at_col j) right_rows) ->
  length (flat_map (pd.join_row i j width right_rows) left_rows)
  = length left_rows.
Proof.
  intro Hnd. induction left_rows as [| l ls IH]; [reflexivity |].
  cbn [flat_map]. rewrite length_app, IH.
  destruct (join_row_single i j width right_rows l Hnd) as [tail ->].
  reflexivity.
Qed.

Lemma join_rows_left (i j width n : nat) (right_rows left_rows : list (list cell)) :
  NoDup (map (at_col j) right_rows) ->
  Forall (fun r => length r = n) left_rows ->
  map (firstn n) (flat_map (pd.join_row i j width right_rows) left_rows)
  = left_rows.
Proof.
  intros Hnd Hrect. induction Hrect as [| l ls Hl Hls IH]; [reflexivity |].
  cbn [flat_map]. rewrite map_app, IH.
  destruct (join_row_single i j width right_rows l Hnd) as [tail ->].
  cbn [map app]. f_equal.
  rewrite firstn_app, <- Hl, firstn_all, Nat.sub_diag. cbn [firstn].
  apply app_nil_r.
Qed.

Lemma merge_rows (left right merged : DataFrame) (on : string) :
  pd.merge left right on = inr merged ->
  exists i j,
    get_loc (columns left) on = Some i /\
    get_loc (columns right) on = Some j /\
    rows merged
    = flat_map (pd.join_row i j (length (remove_at j (columns right))) (rows right))
               (rows left).
Proof.
  unfold pd.merge.
  destruct (get_loc (columns right) on) as [j |]; [| discriminate].
  destruct (get_loc (columns left) on) as [i |]; [| discriminate].
  destruct (_ ++ _); [| discriminate].
  intro H. injection H as <-. exists i, j. auto.
Qed.

Lemma merge_raises (left right : DataFrame) (on : string) (e : exn) :
  In on (columns left) -> In on (columns right) ->
  pd.merge left right on = inl e -> exists dups, e = MergeError dups.
Proof.
  intros Hl Hr. unfold pd.merge.
  destruct (get_loc_In _ _ Hl) as [i ->].
  destruct (get_loc_In _ _ Hr) as [j ->].
  destruct (_ ++ _) as [| d ds]; [discriminate |].
  intro H. injection H as <-. now exists (d :: ds).
Qed.

(** When the two tables share no label besides the key, nothing is
    renamed and the join is produced. *)
Lemma merge_disjoint (left right : DataFrame) (on : string) (i j : nat) :
  get_loc (columns left) on = Some i ->
  get_loc (columns right) on = Some j ->
  (forall c, In c (columns left) -> ~ In c (remove_at j (columns right))) ->
  pd.merge left right on
  = inr {| columns := columns left ++ remove_at j (columns right);
           rows := flat_map (pd.join_row i j (length (remove_at j (columns right)))
                                         (rows right))
                            (rows left) |}.
Proof.
  intros Hi Hj Hdisj. unfold pd.merge. rewrite Hi, Hj.
  rewrite (map_id_in _ (columns left)).
  2:{ intros c Hc. apply Hdisj in Hc. apply contains_not_In in Hc.
      rewrite Hc, andb_false_r. reflexivity. }
  rewrite (map_id_in _ (remove_at j (columns right))).
  2:{ intros c Hc.
      destruct (contains (columns left) c) eqn:E; [| reflexivity].
      apply contains_In in E. now apply Hdisj in E. }
  rewrite !suffix_dups_same. reflexivity.
Qed.

Lemma drop_duplicates_loc (df : DataFrame) (subset : string) (i : nat) :
  get_loc (columns df) subset = Some i ->
  pd.drop_duplicates df subset
  = inr {| columns := columns df;
           rows := pd.drop_duplicate_rows i [] (rows df) |}.
Proof. intro H. unfold pd.drop_duplicates. now rewrite H. Qed.

Lemma drop_duplicates_inr (df df' : DataFrame) (subset : string) :
  pd.drop_duplicates df subset = inr df' ->
  exists j, get_loc (columns df) subset = Some j /\
            df' = {| columns := columns df;
                     rows := pd.drop_duplicate_rows j [] (rows df) |}.
Proof.
  unfold pd.drop_duplicates.
  destruct (get_loc (columns df) subset) as [j |]; [| discriminate].
  intro H. injection H as <-. now exists j.
Qed.

(** The left join with a deduplicated table has the rows of the left. *)
Lemma merge_drop_duplicates_rows (P S S' merged : DataFrame) (k : string) :
  pd.drop_duplicates S k = inr S' ->
  pd.merge P S' k = inr merged ->
  shape0 merged = shape0 P /\
  (rectangular P -> map (firstn (shape1 P)) (rows merged) = rows P).
Proof.
  intros Hd Hm. apply drop_duplicates_inr in Hd. destruct Hd as [j [Hj ->]].
  apply merge_rows in Hm. destruct Hm as [i [j' [_ [Hj' Hrows]]]].
  cbn [columns rows] in *. assert (j' = j) by congruence. subst j'.
  unfold shape0. rewrite Hrows. split.
  - apply join_rows_length, drop_duplicate_rows_NoDup.
  - intro Hrect. apply join_rows_left; [apply drop_duplicate_rows_NoDup | exact Hrect].
Qed.

(** ** The claims on deduplication and on the join *)



(** C3. [drop_duplicates] on the reference column keeps the columns and,
    of the rows, exactly the first-encountered one of each key value in
    the original order: for every key value the rows kept with that key
    are the first such row of the table alone.  Missing is a key value
    like the others: of the rows with a missing key the first is kept. *)
Theorem drop_duplicates_keeps_first (S : DataFrame) (k : string) :
  In k (columns S) ->
  exists i,
    get_loc (columns S) k = Some i /\
    pd.drop_duplicates S k
    = inr {| columns := columns S; rows := Deduplicate i (rows S) |} /\
    (forall v,
       filter (fun r => cell_eqb (at_col i r) v) (Deduplicate i (rows S))
       = firstn 1 (filter (fun r => cell_eqb (at_col i r) v) (rows S))) /\
    filter (fun r => isna (at_col i r)) (Deduplicate i (rows S))
    = firstn 1 (filter (fun r => isna (at_col i r)) (rows S)).
Proof.
  intro HS. destruct (get_loc_In _ _ HS) as [i Hi]. exists i.
  assert (Hv : forall v,
    filter (fun r => cell_eqb (at_col i r) v) (Deduplicate i (rows S))
    = firstn 1 (filter (fun r => cell_eqb (at_col i r) v) (rows S))).
  { intro v. rewrite <- drop_duplicate_rows_Deduplicate.
    apply (filter_drop_duplicate_rows i v (rows S) []). }
  repeat split.
  - exact Hi.
  - rewrite (drop_duplicates_loc _ _ _ Hi).
    now rewrite drop_duplicate_rows_Deduplicate.
  - exact Hv.
  - assert (E : forall l, filter (fun r => isna (at_col i r)) l
                          = filter (fun r => cell_eqb (at_col i r) NaN) l).
    { intro l. apply filter_ext. intro r. now destruct (at_col i r). }
    rewrite !E. apply Hv.
Qed.

Lemma drop_duplicates_keeps_first_witness :
  pd.drop_duplicates S0 "email"
  = inr {| columns := ["email"; "state"];
           rows := [[Str "a@x.com"; Str "CA"]; [Str "c@x.com"; Str "TX"]] |}.
Proof.
  destruct (drop_duplicates_keeps_first S0 "email") as [i [Hi [H _]]].
  - simpl. auto.
  - rewrite H. injection Hi as <-. reflexivity.
Defined.

(** C5. Deduplicating an already deduplicated table changes nothing. *)
Theorem drop_duplicates_idempotent (S : DataFrame) (k : string) :
  In k (columns S) ->
  exists S',
    pd.drop_duplicates S k = inr S' /\ pd.drop_duplicates S' k = inr S'.
Proof.
  intro HS. destruct (get_loc_In _ _ HS) as [i Hi].
  eexists. split; [apply drop_duplicates_loc, Hi |].
  rewrite (drop_duplicates_loc _ k i); cbn [columns rows]; [| exact Hi].
  now rewrite drop_duplicate_rows_idempotent.
Qed.

Lemma drop_duplicates_idempotent_witness :
  exists S',
    pd.drop_duplicates S0 "email" = inr S' /\ pd.drop_duplicates S' "email" = inr S'.
Proof.
  apply (drop_duplicates_idempotent S0 "email"). simpl. auto.
Defined.



(** ** Runs of the script *)

Lemma bind_assoc {A B C : Type} (m : ui A) (f : A -> ui B) (k : B -> ui C) :
  bind (bind m f) k = bind m (fun a => bind (f a) k).
Proof.
  destruct m as [w [a | e |]]; cbn; try reflexivity.
  destruct (f a) as [w' [b | e |]]; cbn; try reflexivity.
  destruct (k b) as [w'' o'']. now rewrite app_assoc.
Qed.

Lemma bind_render {A : Type} (x : element) (k : unit -> ui A) :
  bind (st.render x) k = prepend [x] (k tt).
Proof. unfold bind, st.render, prepend. now destruct (k tt). Qed.

Lemma prepend_prepend {A : Type} (w w' : list element) (m : ui A) :
  prepend w (prepend w' m) = prepend (w ++ w') m.
Proof. unfold prepend. cbn. now rewrite app_assoc. Qed.

Lemma prepend_pair {A : Type} (w w' : list element) (o : outcome A) :
  prepend w (w', o) = (w ++ w', o).
Proof. reflexivity. Qed.

Lemma try_except_prepend {A : Type} (w : list element) (m : ui A)
  (handler : exn -> ui A) :
  try_except (prepend w m) handler = prepend w (try_except m handler).
Proof.
  destruct m as [w' [a | e |]]; cbn; try reflexivity.
  destruct (handler e). unfold prepend. cbn. now rewrite app_assoc.
Qed.

Lemma bind_call_inr {A B : Type} (a : A) (k : A -> ui B) :
  bind (call (inr a)) k = k a.
Proof. unfold bind, call. now destruct (k a). Qed.

Lemma bind_call_inl {A B : Type} (e : exn) (k : A -> ui B) :
  bind (call (inl e)) k = ([], Raise e).
Proof. reflexivity. Qed.

Lemma bind_ret {A B : Type} (a : A) (k : A -> ui B) : bind (ret a) k = k a.
Proof. unfold bind, ret. now destruct (k a). Qed.

Lemma bind_stop {A : Type} (k : unit -> ui A) : bind st.stop k = ([], Stopped).
Proof. reflexivity. Qed.

Lemma try_except_pair {A : Type} (w : list element) (o : outcome A)
  (handler : exn -> ui A) :
  try_except (w, o) handler
  = match o with
    | Raise e => (w ++ rendered (handler e), result (handler e))
    | _ => (w, o)
    end.
Proof.
  unfold try_except. destruct o as [a | e |]; try reflexivity.
  now destruct (handler e).
Qed.

Lemma on_exception_run (e : exn) : on_exception e = (error_report e, Return tt).
Proof. reflexivity. Qed.

Lemma in_combine_seq {A : Type} (l : list A) (c : A) (base n : nat) :
  nth_error l n = Some c -> In (base + n, c) (combine (seq base (length l)) l).
Proof.
  revert base n. induction l as [| x l IH]; intros base n Hn.
  - destruct n; discriminate.
  - destruct n as [| n]; cbn in *.
    + injection Hn as ->. left. f_equal. lia.
    + right. replace (base + S n) with (S base + n) by lia. now apply IH.
Qed.

Lemma read_excel_usecols (file : UploadedFile) (cols : list string)
  (df : DataFrame) (c : string) :
  pd.read_excel file (Some cols) = inr df -> In c cols -> In c (columns df).
Proof.
  destruct file as [msg | t]; [discriminate |]. cbn [pd.read_excel].
  destruct (filter (fun c => negb (contains (columns t) c)) cols) as [| x l] eqn:F;
    [| discriminate].
  intros H Hc. injection H as <-. cbn [columns].
  assert (Hin : In c (columns t)).
  { destruct (contains (columns t) c) eqn:E; [now apply contains_In |].
    assert (Hf : In c (filter (fun c => negb (contains (columns t) c)) cols))
      by (apply filter_In; split; [assumption | now rewrite E]).
    rewrite F in Hf. contradiction. }
  apply In_nth_error in Hin. destruct Hin as [n Hn].
  apply in_map_iff. exists (n, c). split; [reflexivity |].
  apply filter_In. split.
  - apply (in_combine_seq (columns t) c 0 n Hn).
  - cbn. now apply contains_In.
Qed.

Ltac run_forward :=
  repeat (cbv beta zeta;
          first [ rewrite bind_render
                | rewrite bind_call_inr
                | rewrite bind_call_inl
                | rewrite bind_ret
                | rewrite bind_stop
                | rewrite bind_assoc
                | rewrite prepend_prepend
                | rewrite try_except_prepend ]).

Ltac run_done :=
  unfold st.render, ret;
  rewrite ?try_except_pair, ?on_exception_run, ?prepend_pair;
  cbn [rendered result fst snd app].

(** Every run of [main] on two uploaded files, the first of which is a
    spreadsheet, goes one of the five ways of [run]. *)
Lemma main_run (df_a : DataFrame) (file_b : UploadedFile)
  (merge_column target_column : string) :
  run df_a file_b merge_column target_column
      (main (Some (Spreadsheet df_a)) (Some file_b)
            merge_column target_column true).
Proof.
  cbn [main]. unfold process.
  unfold st.subheader, st.info, st.error, st.expander, st.dataframe, st.metric,
    st.download_button.
  change (pd.read_excel (Spreadsheet df_a) None) with (@inr exn _ df_a).
  rewrite bind_call_inr. cbv beta.
  destruct (pd.read_excel file_b (Some [merge_column; target_column]))
    as [e | df_b] eqn:Eb.
  { run_forward. run_done. now apply run_load_failed. }
  rewrite bind_call_inr. cbv beta.
  assert (Hmc : In merge_column (columns df_b))
    by (apply (read_excel_usecols _ _ _ _ Eb); simpl; auto).
  assert (Htc : In target_column (columns df_b))
    by (apply (read_excel_usecols _ _ _ _ Eb); simpl; auto).
  apply contains_In in Htc. rewrite Htc.
  destruct (get_loc_In _ _ Hmc) as [j Hj].
  apply contains_In in Hmc. rewrite Hmc.
  rewrite (drop_duplicates_loc _ _ _ Hj).
  cbn [negb].
  destruct (contains (columns df_a) merge_column) eqn:Ha; cbn [negb].
  2:{ run_forward. run_done. now apply (run_missing_in_A _ _ _ _ df_b). }
  run_forward.
  destruct (pd.merge df_a _ merge_column) as [e | merged] eqn:Em.
  { run_forward. run_done.
    now apply (run_merge_failed _ _ _ _ df_b _ e Eb Ha (drop_duplicates_loc _ _ _ Hj)). }
  run_forward.
  destruct (pd.getitem merged target_column) as [e | target] eqn:Et.
  { run_forward. run_done.
    now apply (run_target_absent _ _ _ _ df_b _ merged e Eb Ha
                 (drop_duplicates_loc _ _ _ Hj)). }
  run_forward.
  pose proof (run_merged _ _ _ _ df_b _ merged target Eb Ha
                (drop_duplicates_loc _ _ _ Hj) Em Et) as Hrun.
  unfold unmatched_records, unmatched_view in Hrun.
  destruct (Nat.ltb 0 (pd.sum (pd.isna target))).
  - run_forward.
    destruct (pd.getitem_list _ _) as [e | view]; run_forward; run_done;
      exact Hrun.
  - run_done. exact Hrun.
Qed.

Lemma main_malformed (msg : string) (file_b : UploadedFile)
  (merge_column target_column : string) :
  main (Some (Malformed msg)) (Some file_b) merge_column target_column true
  = (error_report (ParseError msg), Return tt).
Proof. reflexivity. Qed.

(** Without the button pressed on two uploaded files nothing but the
    invitation to upload is rendered. *)
Lemma main_idle (file_a file_b : option UploadedFile)
  (merge_column target_column : string) (start_processing : bool) (x : element) :
  (start_processing = false \/ file_a = None \/ file_b = None) ->
  In x (rendered (main file_a file_b merge_column target_column start_processing)) ->
  x = Info "👆 Please upload both files to enable processing".
Proof.
  intros H Hx.
  destruct start_processing, file_a as [a |], file_b as [b |];
    try (cbn in Hx; destruct Hx as [<- | []]; reflexivity);
    try (cbn in Hx; contradiction).
  destruct H as [H | [H | H]]; discriminate.
Qed.

Ltac not_rendered H :=
  cbn [file_information merge_results error_report app In] in H;
  repeat (destruct H as [H | H]; [try discriminate H |]);
  try contradiction H.

(** The section on unmatched records holds no counter and no download. *)
Lemma unmatched_records_elements (merged : DataFrame)
  (merge_column target_column : string) (target : Series) (x : element) :
  In x (unmatched_records merged merge_column target_column target) ->
  match x with
  | Metric _ _ | DownloadButton _ _ _ _ | Subheader _ => False
  | _ => True
  end.
Proof.
  unfold unmatched_records.
  destruct (Nat.ltb 0 (pd.sum (pd.isna target))); [| contradiction].
  destruct (unmatched_view merged merge_column target_column target);
    cbn [error_report In]; intuition (subst; exact I).
Qed.

Lemma getitem_inr (df : DataFrame) (label : string) (s : Series) :
  pd.getitem df label = inr s ->
  exists it, get_loc (columns df) label = Some it /\ s = map (at_col it) (rows df).
Proof.
  unfold pd.getitem.
  destruct (get_loc (columns df) label) as [it |]; [| discriminate].
  intro H. injection H as <-. now exists it.
Qed.

(** What is rendered when the counters are: the run went through the
    join and the lookup of the target column. *)
Lemma metric_rendered (file_a file_b : option UploadedFile)
  (merge_column target_column : string) (start_processing : bool)
  (label : string) (value : nat) :
  In (Metric label value)
     (rendered (main file_a file_b merge_column target_column start_processing)) ->
  label <> "Total Rows" ->
  exists P b S S' merged target,
    file_a = Some (Spreadsheet P) /\ file_b = Some b /\
    pd.read_excel b (Some [merge_column; target_column]) = inr S /\
    pd.drop_duplicates S merge_column = inr S' /\
    pd.merge P S' merge_column = inr merged /\
    pd.getitem merged target_column = inr target /\
    rendered (main file_a file_b merge_column target_column start_processing)
    = file_information P S
      ++ merge_results merged (pd.sum (pd.notna target)) (pd.sum (pd.isna target))
      ++ unmatched_records merged merge_column target_column target.
Proof.
  intros Hx Hl.
  destruct start_processing;
    [| apply main_idle in Hx; [discriminate | auto]].
  destruct file_a as [a |];
    [| apply main_idle in Hx; [discriminate | auto]].
  destruct file_b as [b |];
    [| apply main_idle in Hx; [discriminate | auto]].
  destruct a as [msg | P]; [rewrite main_malformed in Hx; not_rendered Hx |].
  pose proof (main_run P b merge_column target_column) as Hrun.
  remember (main _ _ _ _ _) as r eqn:Er. clear Er.
  destruct Hrun as [e He | S He Ha | S S' e He Ha Hd Hm | S S' merged e He Ha Hd Hm Ht
                   | S S' merged target He Ha Hd Hm Ht];
    cbn [rendered fst] in *.
  - not_rendered Hx.
  - apply in_app_or in Hx. destruct Hx as [Hx | Hx]; not_rendered Hx.
  - apply in_app_or in Hx. destruct Hx as [Hx | Hx]; not_rendered Hx.
  - apply in_app_or in Hx. destruct Hx as [Hx | Hx]; not_rendered Hx.
    injection Hx as <- _. now contradiction Hl.
  - exists P, b, S, S', merged, target. repeat split; assumption.
Qed.

Lemma metric_value (df_a df_b merged : DataFrame) (m u : nat)
  (merge_column target_column : string) (target : Series)
  (label : string) (value : nat) :
  In (Metric label value)
     (file_information df_a df_b ++ merge_results merged m u
      ++ unmatched_records merged merge_column target_column target) ->
  (label = "Total Rows" /\ value = shape0 merged) \/
  (label = "Matched Records" /\ value = m) \/
  (label = "Unmatched Records" /\ value = u).
Proof.
  intro H. apply in_app_or in H. destruct H as [H | H]; [not_rendered H |].
  apply in_app_or in H. destruct H as [H | H].
  - cbn [merge_results In] in H.
    destruct H as [H | [H | [H | [H | H]]]]; try discriminate H.
    + injection H as <- <-. auto.
    + injection H as <- <-. auto.
    + injection H as <- <-. auto.
    + not_rendered H.
  - apply unmatched_records_elements in H. contradiction.
Qed.

Lemma sum_map_filter {A : Type} (f : A -> bool) (l : list A) :
  pd.sum (map f l) = length (filter f l).
Proof.
  unfold pd.sum. induction l as [| x l IH]; [reflexivity |].
  simpl. destruct (f x); simpl; congruence.
Qed.

Lemma filter_partition_length {A : Type} (f : A -> bool) (l : list A) :
  length (filter f l) + length (filter (fun x => negb (f x)) l) = length l.
Proof.
  induction l as [| x l IH]; [reflexivity |].
  simpl. destruct (f x); simpl; lia.
Qed.

(** ** Columns read from the secondary sheet, columns of the join *)

Lemma filter_combine_seq {A : Type} (f : A -> bool) (l : list A) (base : nat) :
  map snd (filter (fun ic => f (snd ic)) (combine (seq base (length l)) l))
  = filter f l.
Proof.
  revert base. induction l as [| x l IH]; intro base; [reflexivity |].
  cbn. destruct (f x); cbn; now rewrite IH.
Qed.

Lemma read_excel_usecols_columns (t df : DataFrame) (cols : list string) :
  pd.read_excel (Spreadsheet t) (Some cols) = inr df ->
  columns df = filter (contains cols) (columns t).
Proof.
  cbn [pd.read_excel].
  destruct (filter (fun c => negb (contains (columns t) c)) cols); [| discriminate].
  intro H. injection H as <-. cbn [columns].
  apply (filter_combine_seq (contains cols)).
Qed.

Lemma read_excel_usecols_inr (t : DataFrame) (merge_column target_column : string) :
  In merge_column (columns t) -> In target_column (columns t) ->
  exists df,
    pd.read_excel (Spreadsheet t) (Some [merge_column; target_column]) = inr df.
Proof.
  intros Hm Ht. apply contains_In in Hm, Ht.
  cbn [pd.read_excel filter]. rewrite Hm, Ht. cbn [negb]. now eexists.
Qed.

Lemma read_excel_usecols_inl (t : DataFrame) (merge_column target_column : string) :
  ~ In merge_column (columns t) \/ ~ In target_column (columns t) ->
  exists c missing,
    filter (fun c => negb (contains (columns t) c)) [merge_column; target_column]
    = c :: missing /\
    pd.read_excel (Spreadsheet t) (Some [merge_column; target_column])
    = inl (UsecolsError (c :: missing)).
Proof.
  intro H. cbn [pd.read_excel filter].
  destruct (contains (columns t) merge_column) eqn:Em;
    destruct (contains (columns t) target_column) eqn:Et; cbn [negb];
    try (now eexists; eexists).
  apply contains_In in Em, Et. tauto.
Qed.

Lemma In_remove_at_other {A : Type} (j : nat) (l : list A) (k c : A) :
  In c l -> nth_error l j = Some k -> c <> k -> In c (remove_at j l).
Proof.
  revert j. induction l as [| x l IH]; intros j Hc Hj Hne; [contradiction |].
  destruct j as [| j]; unfold remove_at; cbn in *.
  - injection Hj as ->. destruct Hc as [-> | Hc]; [contradiction | assumption].
  - destruct Hc as [-> | Hc]; [now left | right; now apply (IH j)].
Qed.

(** Of a sheet read with [usecols=[merge_column, target_column]] only the
    target column is left beside the key. *)
Lemma usecols_right_columns (t df : DataFrame) (merge_column target_column : string)
  (j : nat) (c : string) :
  NoDup (columns t) ->
  pd.read_excel (Spreadsheet t) (Some [merge_column; target_column]) = inr df ->
  get_loc (columns df) merge_column = Some j ->
  In c (remove_at j (columns df)) -> c = target_column /\ c <> merge_column.
Proof.
  intros Hnd Hr Hj Hc.
  pose proof (read_excel_usecols_columns _ _ _ Hr) as Hcols.
  assert (Hne : c <> merge_column).
  { apply (In_remove_at_NoDup j (columns df)); [| now apply get_loc_nth | exact Hc].
    rewrite Hcols. now apply NoDup_filter. }
  split; [| exact Hne].
  apply In_remove_at in Hc. rewrite Hcols in Hc. apply filter_In in Hc.
  destruct Hc as [_ Hc]. cbn in Hc.
  destruct (String.eqb_spec c merge_column); [contradiction |].
  destruct (String.eqb_spec c target_column); [assumption | discriminate].
Qed.

Lemma merge_columns (left right merged : DataFrame) (on : string) :
  pd.merge left right on = inr merged ->
  exists j,
    get_loc (columns right) on = Some j /\
    columns merged
    = map (fun c => if contains (columns left) c
                       && contains (remove_at j (columns right)) c
                    then (c ++ "_x")%string else c)
          (columns left)
      ++ map (fun c => if contains (columns left) c
                          && contains (remove_at j (columns right)) c
                       then (c ++ "_y")%string else c)
             (remove_at j (columns right)).
Proof.
  unfold pd.merge.
  destruct (get_loc (columns right) on) as [j |]; [| discriminate].
  destruct (get_loc (columns left) on) as [i |]; [| discriminate].
  destruct (_ ++ _); [| discriminate].
  intro H. injection H as <-. exists j. auto.
Qed.

Lemma getitem_inl (df : DataFrame) (label : string) (e : exn) :
  pd.getitem df label = inl e -> e = KeyError label /\ ~ In label (columns df).
Proof.
  unfold pd.getitem.
  destruct (get_loc (columns df) label) as [it |] eqn:E; [discriminate |].
  intro H. injection H as <-. split; [reflexivity | now apply get_loc_None].
Qed.

Lemma length_append (s t : string) :
  String.length (s ++ t) = String.length s + String.length t.
Proof. induction s as [| a s IH]; cbn; [reflexivity | now rewrite IH]. Qed.

Lemma append_suffix_neq (s : string) (a : ascii) (t : string) :
  (s ++ String a t)%string <> s.
Proof.
  intro H. apply (f_equal String.length) in H.
  rewrite length_append in H. cbn in H. lia.
Qed.

Lemma NoDup_map_in {A B : Type} (f : A -> B) (l : list A) :
  (forall a b, In a l -> In b l -> f a = f b -> a = b) ->
  NoDup l -> NoDup (map f l).
Proof.
  intros Hinj Hnd. induction Hnd as [| x l Hx Hl IH]; cbn; constructor.
  - rewrite in_map_iff. intros [y [E Hy]].
    apply Hx. rewrite (Hinj x y); [assumption | now left | now right | now symmetry].
  - apply IH. intros a b Ha Hb. apply Hinj; now right.
Qed.

Lemma NoDup_remove_at {A : Type} (j : nat) (l : list A) :
  NoDup l -> NoDup (remove_at j l).
Proof.
  revert j. induction l as [| x l IH]; intros j Hnd.
  - unfold remove_at. now destruct j.
  - inversion Hnd as [| y ys Hx Hl]; subst.
    destruct j as [| j]; unfold remove_at; cbn; [assumption |].
    constructor; [| now apply (IH j)].
    intro H. apply Hx. eapply In_remove_at, H.
Qed.

Lemma duplicated_from_NoDup (seen l : list string) :
  NoDup l -> (forall x, In x l -> ~ In x seen) ->
  forall b, In b (pd.duplicated_from seen l) -> b = false.
Proof.
  intro Hnd. revert seen.
  induction Hnd as [| x l Hx Hl IH]; intros seen Hfresh b Hb; [contradiction |].
  cbn in Hb. destruct Hb as [<- | Hb].
  - apply contains_not_In. apply Hfresh. now left.
  - apply (IH (x :: seen)); [| exact Hb].
    intros y Hy [<- | Hs]; [contradiction |].
    apply (Hfresh y); [now right | assumption].
Qed.

(** Labels that stay distinct after renaming raise no complaint. *)
Lemma suffix_dups_NoDup (orig renamed : list string) :
  NoDup renamed -> pd.suffix_dups orig renamed = [].
Proof.
  intro Hnd. unfold pd.suffix_dups. rewrite filter_all_false; [reflexivity |].
  intros [c [a b]] H. apply in_combine_r in H. apply in_combine_l in H.
  cbn. rewrite (duplicated_from_NoDup [] renamed Hnd (fun _ _ F => F) a H).
  reflexivity.
Qed.

Section Collision.

Variables (P df_b : DataFrame) (merge_column target_column : string) (j : nat).
Variable df_b_rows : list (list cell).

Hypothesis right_columns :
  forall c, In c (remove_at j (columns df_b)) ->
            c = target_column /\ c <> merge_column.
Hypothesis key_loc : get_loc (columns df_b) merge_column = Some j.
Hypothesis target_right : In target_column (columns df_b).
Hypothesis target_left : In target_column (columns P).
Hypothesis target_not_key : target_column <> merge_column.

Lemma collision_to_rename :
  contains (columns P) target_column
  && contains (remove_at j (columns df_b)) target_column = true.
Proof.
  apply andb_true_intro. split; apply contains_In; [assumption |].
  apply (In_remove_at_other j (columns df_b) merge_column);
    [assumption | now apply get_loc_nth | assumption].
Qed.

Lemma to_rename_target (c : string) :
  contains (columns P) c && contains (remove_at j (columns df_b)) c = true ->
  c = target_column.
Proof.
  intro H. apply andb_prop in H. destruct H as [_ H].
  apply contains_In in H. now apply right_columns in H.
Qed.

(** The join on a colliding target column holds the two suffixed labels
    and not the target label. *)
Lemma collision_columns (merged : DataFrame) :
  pd.merge P {| columns := columns df_b; rows := df_b_rows |} merge_column
  = inr merged ->
  In (target_column ++ "_x")%string (columns merged) /\
  In (target_column ++ "_y")%string (columns merged) /\
  ~ In target_column (columns merged).
Proof.
  intro Hm. apply merge_columns in Hm. destruct Hm as [j' [Hj' ->]].
  cbn [columns] in *. assert (j' = j) by congruence. subst j'.
  pose proof collision_to_rename as Hren.
  repeat split.
  - apply in_or_app. left. apply in_map_iff. exists target_column.
    rewrite Hren. auto.
  - apply in_or_app. right. apply in_map_iff. exists target_column.
    rewrite Hren. split; [reflexivity |].
    apply andb_prop in Hren. now apply contains_In.
  - intro H. apply in_app_or in H.
    destruct H as [H | H]; apply in_map_iff in H; destruct H as [c [E Hc]];
      destruct (contains (columns P) c && contains (remove_at j (columns df_b)) c)
        eqn:Ec;
      try (apply to_rename_target in Ec; subst c;
           now apply append_suffix_neq in E);
      subst c; rewrite Hren in Ec; discriminate.
Qed.

(** The join is produced when the suffixed label is free. *)
Lemma collision_merge (i : nat) :
  get_loc (columns P) merge_column = Some i ->
  NoDup (columns P) -> NoDup (columns df_b) ->
  ~ In (target_column ++ "_x")%string (columns P) ->
  exists merged,
    pd.merge P {| columns := columns df_b; rows := df_b_rows |} merge_column
    = inr merged.
Proof.
  intros Hi HndP HndB Hfree. unfold pd.merge. cbn [columns rows].
  rewrite key_loc, Hi. cbv zeta.
  rewrite !suffix_dups_NoDup; [now eexists | |].
  - apply NoDup_map_in; [| now apply NoDup_remove_at].
    intros a b Ha Hb _. apply right_columns in Ha, Hb.
    destruct Ha as [-> _], Hb as [-> _]. reflexivity.
  - apply NoDup_map_in; [| assumption].
    intros a b Ha Hb.
    destruct (contains (columns P) a && contains (remove_at j (columns df_b)) a)
      eqn:Ea;
      destruct (contains (columns P) b && contains (remove_at j (columns df_b)) b)
        eqn:Eb; intro E.
    + apply to_rename_target in Ea, Eb. congruence.
    + apply to_rename_target in Ea. subst a b. contradiction.
    + apply to_rename_target in Eb. subst a b. contradiction.
    + exact E.
Qed.

End Collision.

(** ** The claims on the run of the script *)

(** C4. Whenever the script displays its three counters, the matched
    count is the number of rows of the merged table whose target field
    is not missing, the unmatched count the number of those whose target
    field is missing, and the total is their sum and is the number of
    rows of the primary table. *)
Theorem stats_invariant (file_a file_b : option UploadedFile)
  (merge_column target_column : string) (start_processing : bool) (n m u : nat) :
  In (Metric "Total Rows" n)
     (rendered (main file_a file_b merge_column target_column start_processing)) ->
  In (Metric "Matched Records" m)
     (rendered (main file_a file_b merge_column target_column start_processing)) ->
  In (Metric "Unmatched Records" u)
     (rendered (main file_a file_b merge_column target_column start_processing)) ->
  exists P b S S' merged it,
    file_a = Some (Spreadsheet P) /\ file_b = Some b /\
    pd.read_excel b (Some [merge_column; target_column]) = inr S /\
    pd.drop_duplicates S merge_column = inr S' /\
    pd.merge P S' merge_column = inr merged /\
    get_loc (columns merged) target_column = Some it /\
    m = length (filter (fun r => notna (at_col it r)) (rows merged)) /\
    u = length (filter (fun r => isna (at_col it r)) (rows merged)) /\
    n = shape0 merged /\ n = m + u /\ n = shape0 P.
Proof.
  intros Hn Hm Hu.
  destruct (metric_rendered _ _ _ _ _ _ _ Hm)
    as [P [b [S [S' [merged [target [Ea [Eb [He [Hd [Hj [Ht Hr]]]]]]]]]]]];
    [discriminate |].
  rewrite Hr in Hn, Hm, Hu.
  apply metric_value in Hn, Hm, Hu.
  destruct Hn as [[_ ->] | [[Hn _] | [Hn _]]]; try discriminate Hn.
  destruct Hm as [[Hm _] | [[_ ->] | [Hm _]]]; try discriminate Hm.
  destruct Hu as [[Hu _] | [[Hu _] | [_ ->]]]; try discriminate Hu.
  destruct (getitem_inr _ _ _ Ht) as [it [Hit ->]].
  exists P, b, S, S', merged, it.
  unfold pd.notna, pd.isna. rewrite !map_map, !sum_map_filter.
  repeat split; try assumption.
  - unfold shape0.
    rewrite <- (filter_partition_length (fun r => notna (at_col it r)) (rows merged)).
    f_equal. f_equal. apply filter_ext. intro r. unfold notna.
    now rewrite negb_involutive.
  - apply (merge_drop_duplicates_rows P S S' merged merge_column Hd Hj).
Qed.

Lemma stats_invariant_witness :
  exists P b S S' merged it,
    Some (Spreadsheet P0) = Some (Spreadsheet P) /\
    Some (Spreadsheet S0) = Some b /\
    pd.read_excel b (Some ["email"; "state"]) = inr S /\
    pd.drop_duplicates S "email" = inr S' /\
    pd.merge P S' "email" = inr merged /\
    get_loc (columns merged) "state" = Some it /\
    1 = length (filter (fun r => notna (at_col it r)) (rows merged)) /\
    1 = length (filter (fun r => isna (at_col it r)) (rows merged)) /\
    2 = shape0 merged /\ 2 = 1 + 1 /\ 2 = shape0 P.
Proof.
  apply (stats_invariant (Some (Spreadsheet P0)) (Some (Spreadsheet S0))
           "email" "state" true 2 1 1);
    vm_compute; tauto.
Defined.

(** C8. Whenever the script offers a download, its content is the
    workbook made of one sheet, named Merged_Data, whose first row is
    the header of the merged table and whose next rows are the rows of
    the merged table in order, without an index column. *)
Theorem download_is_merged_sheet (file_a file_b : option UploadedFile)
  (merge_column target_column : string) (start_processing : bool)
  (label : string) (data : workbook) (file_name mime : string) :
  In (DownloadButton label data file_name mime)
     (rendered (main file_a file_b merge_column target_column start_processing)) ->
  exists P b S S' merged,
    file_a = Some (Spreadsheet P) /\ file_b = Some b /\
    pd.read_excel b (Some [merge_column; target_column]) = inr S /\
    pd.drop_duplicates S merge_column = inr S' /\
    pd.merge P S' merge_column = inr merged /\
    data = pd.to_excel merged pd.ExcelWriter false "Merged_Data" /\
    data = [("Merged_Data", map Str (columns merged) :: rows merged)].
Proof.
  intro Hx.
  destruct start_processing;
    [| apply main_idle in Hx; [discriminate | auto]].
  destruct file_a as [a |];
    [| apply main_idle in Hx; [discriminate | auto]].
  destruct file_b as [b |];
    [| apply main_idle in Hx; [discriminate | auto]].
  destruct a as [msg | P]; [rewrite main_malformed in Hx; not_rendered Hx |].
  pose proof (main_run P b merge_column target_column) as Hrun.
  remember (main _ _ _ _ _) as r eqn:Er. clear Er.
  destruct Hrun as [e He | S He Ha | S S' e He Ha Hd Hm | S S' merged e He Ha Hd Hm Ht
                   | S S' merged target He Ha Hd Hm Ht];
    cbn [rendered fst] in *.
  - not_rendered Hx.
  - apply in_app_or in Hx. destruct Hx as [Hx | Hx]; not_rendered Hx.
  - apply in_app_or in Hx. destruct Hx as [Hx | Hx]; not_rendered Hx.
  - apply in_app_or in Hx. destruct Hx as [Hx | Hx]; not_rendered Hx.
  - apply in_app_or in Hx. destruct Hx as [Hx | Hx]; [not_rendered Hx |].
    apply in_app_or in Hx. destruct Hx as [Hx | Hx].
    + not_rendered Hx. injection Hx as _ <- _ _.
      exists P, b, S, S', merged. repeat split; assumption.
    + apply unmatched_records_elements in Hx. contradiction.
Qed.

Lemma download_is_merged_sheet_witness :
  exists P b S S' merged,
    Some (Spreadsheet P0) = Some (Spreadsheet P) /\
    Some (Spreadsheet S0) = Some b /\
    pd.read_excel b (Some ["email"; "state"]) = inr S /\
    pd.drop_duplicates S "email" = inr S' /\
    pd.merge P S' "email" = inr merged /\
    [("Merged_Data",
      [[Str "email"; Str "name"; Str "state"];
       [Str "a@x.com"; Str "A"; Str "CA"];
       [Str "b@x.com"; Str "B"; NaN]])]
    = pd.to_excel merged pd.ExcelWriter false "Merged_Data" /\
    [("Merged_Data",
      [[Str "email"; Str "name"; Str "state"];
       [Str "a@x.com"; Str "A"; Str "CA"];
       [Str "b@x.com"; Str "B"; NaN]])]
    = [("Merged_Data", map Str (columns merged) :: rows merged)].
Proof.
  apply (download_is_merged_sheet (Some (Spreadsheet P0)) (Some (Spreadsheet S0))
           "email" "state" true
           "📥 Download Games_State.xlsx" _ "Games_State.xlsx"
           "application/vnd.openxmlformats-officedocument.spreadsheetml.sheet").
  vm_compute. tauto.
Defined.











(** * Further properties of the script *)

(** ** How a run ends *)


(** ** The errors a run reports *)

Lemma append_same_length (s t u v : string) :
  String.length s = String.length t ->
  (s ++ u)%string = (t ++ v)%string -> s = t /\ u = v.
Proof.
  revert t. induction s as [| a s IH]; intros [| b t] Hlen H;
    try discriminate Hlen.
  - now split.
  - cbn in Hlen, H. injection H as -> H. injection Hlen as Hlen.
    destruct (IH t Hlen H) as [-> ->]. now split.
Qed.

Lemma error_in_unmatched_records (merged : DataFrame)
  (merge_column target_column : string) (target : Series) (body : string) :
  In (Error body) (unmatched_records merged merge_column target_column target) ->
  exists e, body = ("An error occurred: " ++ str e)%string.
Proof.
  unfold unmatched_records.
  destruct (Nat.ltb 0 (pd.sum (pd.isna target))); [| contradiction].
  destruct (unmatched_view merged merge_column target_column target) as [e | view];
    cbn [error_report In]; intros [H | H]; try discriminate H.
  - destruct H as [H | [H | []]]; try discriminate H.
    injection H as <-. now exists e.
  - destruct H as [H | []]. discriminate H.
Qed.

Lemma error_rendered (file_a file_b : option UploadedFile)
  (merge_column target_column : string) (start_processing : bool) (body : string) :
  In (Error body)
     (rendered (main file_a file_b merge_column target_column start_processing)) ->
  (exists e, body = ("An error occurred: " ++ str e)%string) \/
  body = ("Column '" ++ merge_column ++ "' not found in File A")%string.
Proof.
  intro Hx.
  destruct start_processing;
    [| apply main_idle in Hx; [discriminate | auto]].
  destruct file_a as [a |];
    [| apply main_idle in Hx; [discriminate | auto]].
  destruct file_b as [b |];
    [| apply main_idle in Hx; [discriminate | auto]].
  destruct a as [msg | P].
  { rewrite main_malformed in Hx. not_rendered Hx.
    injection Hx as <-. left. now exists (ParseError msg). }
  pose proof (main_run P b merge_column target_column) as Hrun.
  remember (main _ _ _ _ _) as r eqn:Er. clear Er.
  destruct Hrun as [e He | S He Ha | S S' e He Ha Hd Hm | S S' merged e He Ha Hd Hm Ht
                   | S S' merged target He Ha Hd Hm Ht];
    cbn [rendered fst] in *.
  - not_rendered Hx. injection Hx as <-. left. eexists. reflexivity.
  - apply in_app_or in Hx. destruct Hx as [Hx | Hx]; not_rendered Hx.
    injection Hx as <-. now right.
  - apply in_app_or in Hx. destruct Hx as [Hx | Hx]; not_rendered Hx.
    injection Hx as <-. left. eexists. reflexivity.
  - apply in_app_or in Hx. destruct Hx as [Hx | Hx]; not_rendered Hx.
    injection Hx as <-. left. eexists. reflexivity.
  - apply in_app_or in Hx. destruct Hx as [Hx | Hx]; [not_rendered Hx |].
    apply in_app_or in Hx. destruct Hx as [Hx | Hx]; [not_rendered Hx |].
    left. eapply error_in_unmatched_records, Hx.
Qed.



(** ** Deduplication and join, beyond the claims *)

Lemma drop_duplicate_rows_incl (i : nat) (rs : list (list cell)) (seen : list cell) :
  forall r, In r (pd.drop_duplicate_rows i seen rs) -> In r rs.
Proof.
  revert seen. induction rs as [| r0 rs IH]; intros seen r; simpl; [tauto |].
  destruct (existsb (cell_eqb (at_col i r0)) seen).
  - intro H. right. eapply IH, H.
  - intros [<- | H]; [now left | right; eapply IH, H].
Qed.

Lemma drop_duplicate_rows_length (i : nat) (rs : list (list cell)) (seen : list cell) :
  length (pd.drop_duplicate_rows i seen rs) <= length rs.
Proof.
  revert seen. induction rs as [| r0 rs IH]; intro seen; simpl; [lia |].
  destruct (existsb (cell_eqb (at_col i r0)) seen); simpl.
  - specialize (IH seen). lia.
  - specialize (IH (at_col i r0 :: seen)). lia.
Qed.

Lemma drop_duplicate_rows_keeps_keys (i : nat) (rs : list (list cell)) :
  forall r, In r rs ->
  exists r', In r' (pd.drop_duplicate_rows i [] rs) /\ at_col i r' = at_col i r.
Proof.
  intros r Hr.
  pose proof (filter_drop_duplicate_rows i (at_col i r) rs []) as H.
  cbn [existsb] in H.
  assert (Hin : In r (filter (fun r0 => cell_eqb (at_col i r0) (at_col i r)) rs))
    by (apply filter_In; split; [assumption | apply cell_eqb_refl]).
  destruct (filter (fun r0 => cell_eqb (at_col i r0) (at_col i r)) rs)
    as [| x l]; [contradiction |].
  cbn [firstn] in H.
  assert (Hx : In x (filter (fun r0 => cell_eqb (at_col i r0) (at_col i r))
                            (pd.drop_duplicate_rows i [] rs)))
    by (rewrite H; now left).
  apply filter_In in Hx. destruct Hx as [Hx E].
  exists x. split; [assumption | now apply cell_eqb_eq].
Qed.

(** X7.  The deduplicated table has the columns of the table, no more rows,
    only rows of the table, pairwise distinct keys, and every key of
    the table; it is rectangular when the table is. *)
Theorem drop_duplicates_invariants (S S' : DataFrame) (k : string) :
  pd.drop_duplicates S k = inr S' ->
  exists j,
    get_loc (columns S) k = Some j /\
    columns S' = columns S /\
    shape0 S' <= shape0 S /\
    NoDup (map (at_col j) (rows S')) /\
    (forall r, In r (rows S') -> In r (rows S)) /\
    (forall r, In r (rows S) ->
       exists r', In r' (rows S') /\ at_col j r' = at_col j r) /\
    (rectangular S -> rectangular S').
Proof.
  intro H. apply drop_duplicates_inr in H. destruct H as [j [Hj ->]].
  exists j. cbn [columns rows]. unfold shape0, rectangular. cbn [columns rows].
  repeat split.
  - exact Hj.
  - apply drop_duplicate_rows_length.
  - apply drop_duplicate_rows_NoDup.
  - apply drop_duplicate_rows_incl.
  - apply drop_duplicate_rows_keeps_keys.
  - rewrite !Forall_forall. intros Hrect r Hr.
    apply Hrect. eapply drop_duplicate_rows_incl, Hr.
Qed.

Lemma drop_duplicates_invariants_witness :
  exists j,
    get_loc (columns S0) "email" = Some j /\
    ["email"; "state"] = columns S0 /\
    2 <= shape0 S0 /\
    NoDup (map (at_col j) [[Str "a@x.com"; Str "CA"]; [Str "c@x.com"; Str "TX"]]) /\
    (forall r, In r [[Str "a@x.com"; Str "CA"]; [Str "c@x.com"; Str "TX"]] ->
       In r (rows S0)) /\
    (forall r, In r (rows S0) ->
       exists r', In r' [[Str "a@x.com"; Str "CA"]; [Str "c@x.com"; Str "TX"]]
                  /\ at_col j r' = at_col j r) /\
    (rectangular S0 ->
     rectangular {| columns := ["email"; "state"];
                    rows := [[Str "a@x.com"; Str "CA"]; [Str "c@x.com"; Str "TX"]] |}).
Proof.
  apply (drop_duplicates_invariants S0
           {| columns := ["email"; "state"];
              rows := [[Str "a@x.com"; Str "CA"]; [Str "c@x.com"; Str "TX"]] |}
           "email").
  reflexivity.
Defined.

Lemma join_row_bounds (i j width : nat) (right_rows : list (list cell))
  (l : list cell) :
  1 <= length (pd.join_row i j width right_rows l) <= Nat.max 1 (length right_rows).
Proof.
  unfold pd.join_row.
  pose proof (filter_length_le (fun r => cell_eqb (at_col j r) (at_col i l))
                               right_rows) as Hle.
  revert Hle.
  destruct (filter (fun r => cell_eqb (at_col j r) (at_col i l)) right_rows)
    as [| r rs]; intro Hle; [cbn [length]; lia |].
  rewrite length_map. cbn [length] in *. lia.
Qed.

Lemma join_row_extends (i j width : nat) (right_rows : list (list cell))
  (l m : list cell) :
  In m (pd.join_row i j width right_rows l) -> exists tail, m = l ++ tail.
Proof.
  unfold pd.join_row.
  destruct (filter (fun r => cell_eqb (at_col j r) (at_col i l)) right_rows)
    as [| r rs].
  - intros [<- | []]. now eexists.
  - intro H. apply in_map_iff in H. destruct H as [x [<- _]]. now eexists.
Qed.

(** X8.  The left join never drops a row of the left table, whatever the
    right table holds: the result has at least the rows of the left
    table and at most that many times the rows of the right one, every
    left row is extended at least once, and every row of the result
    extends a left row. *)
Theorem merge_never_drops_rows (P S merged : DataFrame) (k : string) :
  pd.merge P S k = inr merged ->
  shape0 P <= shape0 merged <= shape0 P * Nat.max 1 (shape0 S) /\
  (forall l, In l (rows P) -> exists tail, In (l ++ tail) (rows merged)) /\
  (forall m, In m (rows merged) -> exists l tail, In l (rows P) /\ m = l ++ tail).
Proof.
  intro Hm. apply merge_rows in Hm. destruct Hm as [i [j [_ [_ Hrows]]]].
  unfold shape0. rewrite Hrows. clear Hrows.
  set (w := length (remove_at j (columns S))). clearbody w.
  split; [| split].
  - induction (rows P) as [| l ls IH]; cbn [flat_map length]; [lia |].
    rewrite length_app.
    pose proof (join_row_bounds i j w (rows S) l). lia.
  - intros l Hl.
    pose proof (join_row_bounds i j w (rows S) l) as Hb.
    destruct (pd.join_row i j w (rows S) l) as [| m ms] eqn:E;
      [simpl in Hb; lia |].
    destruct (join_row_extends i j w (rows S) l m) as [tail ->];
      [rewrite E; now left |].
    exists tail. apply in_flat_map. exists l. split; [assumption |].
    rewrite E. now left.
  - intros m Hin. apply in_flat_map in Hin. destruct Hin as [l [Hl Hin]].
    apply join_row_extends in Hin. destruct Hin as [tail ->].
    now exists l, tail.
Qed.

Lemma merge_never_drops_rows_witness :
  shape0 P0 <= 3 <= shape0 P0 * Nat.max 1 (shape0 S0).
Proof.
  apply (merge_never_drops_rows P0 S0
           {| columns := ["email"; "name"; "state"];
              rows := [[Str "a@x.com"; Str "A"; Str "CA"];
                       [Str "a@x.com"; Str "A"; Str "NY"];
                       [Str "b@x.com"; Str "B"; NaN]] |}
           "email").
  reflexivity.
Defined.

(** ** Loading the secondary sheet *)

Lemma in_combine_seq_inv {A : Type} (l : list A) (c : A) (base n : nat) :
  In (n, c) (combine (seq base (length l)) l) ->
  base <= n /\ nth_error l (n - base) = Some c.
Proof.
  revert base. induction l as [| x l IH]; intros base H; [contradiction |].
  cbn in H. destruct H as [H | H].
  - injection H as <- <-. rewrite Nat.sub_diag. now split.
  - apply IH in H. destruct H as [Hle H]. split; [lia |].
    replace (n - base) with (S (n - S base)) by lia. exact H.
Qed.

Lemma get_loc_NoDup (cols : list string) (c : string) (n : nat) :
  NoDup cols -> nth_error cols n = Some c -> get_loc cols c = Some n.
Proof.
  intro Hnd. revert n. induction Hnd as [| x l Hx Hl IH]; intros n Hn.
  - destruct n; discriminate.
  - destruct n as [| n]; cbn in *.
    + injection Hn as ->. now rewrite String.eqb_refl.
    + destruct (String.eqb_spec x c) as [-> | _].
      * exfalso. apply Hx. eapply nth_error_In, Hn.
      * now rewrite (IH n Hn).
Qed.

Lemma nth_map_nth_error {A : Type} (g : A -> cell) (l : list A) (p : nat) (x : A) :
  nth_error l p = Some x -> at_col p (map g l) = g x.
Proof.
  unfold at_col. revert p. induction l as [| y l IH]; intros [| p] H;
    try discriminate; cbn in *.
  - now injection H as ->.
  - now apply IH.
Qed.

(** The table read with [usecols], as a projection of the sheet. *)
Lemma read_excel_usecols_projection (t df : DataFrame) (cols : list string) :
  NoDup (columns t) ->
  pd.read_excel (Spreadsheet t) (Some cols) = inr df ->
  exists g : list cell -> list cell,
    rows df = map g (rows t) /\
    (forall r, length (g r) = length (columns df)) /\
    forall c p n,
      get_loc (columns df) c = Some p -> get_loc (columns t) c = Some n ->
      forall r, at_col p (g r) = at_col n r.
Proof.
  intros Hnd. cbn [pd.read_excel].
  destruct (filter (fun c => negb (contains (columns t) c)) cols); [| discriminate].
  intro H. injection H as <-. cbn [columns rows].
  set (keep := filter (fun ic => contains cols (snd ic))
                      (combine (seq 0 (length (columns t))) (columns t))).
  exists (fun r => map (fun ic => at_col (fst ic) r) keep).
  split; [reflexivity |]. split; [intro r; now rewrite !length_map |].
  intros c p n Hp Hn r.
  apply get_loc_nth in Hp. rewrite nth_error_map in Hp.
  destruct (nth_error keep p) as [[n' c'] |] eqn:Ek; [| discriminate].
  cbn in Hp. injection Hp as ->.
  rewrite (nth_map_nth_error _ keep p (n', c) Ek). cbn [fst].
  apply nth_error_In in Ek. unfold keep in Ek. apply filter_In in Ek.
  destruct Ek as [Ek _]. apply in_combine_seq_inv in Ek.
  destruct Ek as [_ Ek]. rewrite Nat.sub_0_r in Ek.
  apply (get_loc_NoDup _ _ _ Hnd) in Ek. congruence.
Qed.



(** ** Where the joined values come from *)

Lemma firstn_filter_find {A : Type} (f : A -> bool) (l : list A) :
  firstn 1 (filter f l)
  = match find f l with Some x => [x] | None => [] end.
Proof.
  induction l as [| x l IH]; [reflexivity |].
  cbn [filter find]. now destruct (f x).
Qed.

(** Joining with the deduplicated rows is looking up the first row of
    the original ones that holds the key. *)
Lemma join_row_drop_duplicates (i j width : nat) (rs : list (list cell))
  (l : list cell) :
  pd.join_row i j width (pd.drop_duplicate_rows j [] rs) l
  = [l ++ match find (fun r => cell_eqb (at_col j r) (at_col i l)) rs with
          | Some r => remove_at j r
          | None => repeat NaN width
          end].
Proof.
  unfold pd.join_row.
  rewrite (filter_drop_duplicate_rows j (at_col i l) rs []). cbn [existsb].
  rewrite firstn_filter_find.
  now destruct (find (fun r => cell_eqb (at_col j r) (at_col i l)) rs).
Qed.

Lemma nth_empty {A : Type} (n : nat) (d : A) : nth n [] d = d.
Proof. now destruct n. Qed.

Lemma remove_at_cons {A : Type} (j : nat) (x : A) (r : list A) :
  remove_at (S j) (x :: r) = x :: remove_at j r.
Proof. reflexivity. Qed.

Lemma nth_remove_at {A : Type} (j q : nat) (r : list A) (d : A) :
  nth q (remove_at j r) d = nth (if Nat.ltb q j then q else S q) r d.
Proof.
  revert q r. induction j as [| j IH]; intros q r.
  - unfold remove_at. cbn. destruct r; [now destruct q | reflexivity].
  - destruct r as [| x r];
      [unfold remove_at; cbn [firstn skipn app]; now rewrite !nth_empty |].
    rewrite remove_at_cons.
    destruct q as [| q]; [reflexivity |].
    change (Nat.ltb (S q) (S j)) with (Nat.ltb q j).
    cbn [nth]. rewrite IH. now destruct (Nat.ltb q j).
Qed.

Lemma get_loc_remove_at (cols : list string) (k t : string) (j jt : nat) :
  get_loc cols k = Some j -> get_loc cols t = Some jt -> t <> k ->
  get_loc (remove_at j cols) t = Some (if Nat.ltb jt j then jt else jt - 1) /\ jt <> j.
Proof.
  revert j jt. induction cols as [| x cols IH]; intros j jt Hj Ht Hne;
    [discriminate |].
  cbn in Hj, Ht.
  destruct (String.eqb_spec x k) as [-> | Hxk].
  - injection Hj as <-.
    destruct (String.eqb_spec k t) as [-> | _]; [contradiction |].
    destruct (get_loc cols t) as [q |] eqn:Eq; [| discriminate].
    injection Ht as <-. unfold remove_at. cbn. rewrite Nat.sub_0_r. now split.
  - destruct (get_loc cols k) as [j' |]; [| discriminate]. injection Hj as <-.
    rewrite remove_at_cons. cbn [get_loc].
    destruct (String.eqb_spec x t) as [-> | _].
    + injection Ht as <-. now split.
    + destruct (get_loc cols t) as [q |] eqn:Eq; [| discriminate].
      injection Ht as <-.
      destruct (IH j' q eq_refl eq_refl Hne) as [-> Hq]. cbn [option_map].
      change (Nat.ltb (S q) (S j')) with (Nat.ltb q j').
      split; [| lia].
      destruct (Nat.ltb q j') eqn:E; [reflexivity |].
      apply Nat.ltb_ge in E. f_equal. lia.
Qed.

Lemma get_loc_app_r (a b : list string) (t : string) (q : nat) :
  ~ In t a -> get_loc b t = Some q -> get_loc (a ++ b) t = Some (length a + q).
Proof.
  intros Hno Hq. induction a as [| x a IH]; [exact Hq |].
  cbn. destruct (String.eqb_spec x t) as [-> | _].
  - exfalso. apply Hno. now left.
  - rewrite IH; [reflexivity |]. intro H. apply Hno. now right.
Qed.

Lemma nth_repeat_NaN (q width : nat) : nth q (repeat NaN width) NaN = NaN.
Proof.
  revert q. induction width as [| w IH]; intros [| q]; cbn; auto.
Qed.

(** The cell of a right column in a joined row. *)
Lemma at_col_joined (i j q jt width : nat) (rs : list (list cell)) (l : list cell) :
  jt <> j -> q = (if Nat.ltb jt j then jt else jt - 1) ->
  at_col (length l + q)
         (l ++ match find (fun r => cell_eqb (at_col j r) (at_col i l)) rs with
               | Some r => remove_at j r
               | None => repeat NaN width
               end)
  = match find (fun r => cell_eqb (at_col j r) (at_col i l)) rs with
    | Some r => at_col jt r
    | None => NaN
    end.
Proof.
  intros Hne ->. unfold at_col at 1. rewrite app_nth2_plus.
  destruct (find (fun r => cell_eqb (at_col j r) (at_col i l)) rs) as [r |];
    [| apply nth_repeat_NaN].
  unfold at_col.
  rewrite nth_remove_at.
  destruct (Nat.ltb jt j) eqn:E; [now rewrite E |].
  apply Nat.ltb_ge in E.
  replace (Nat.ltb (jt - 1) j) with false by (symmetry; apply Nat.ltb_ge; lia).
  f_equal. lia.
Qed.



(** ** The run on valid uploads *)

Lemma find_map {A B : Type} (f : B -> bool) (g : A -> B) (l : list A) :
  find f (map g l) = option_map g (find (fun x => f (g x)) l).
Proof.
  induction l as [| x l IH]; [reflexivity |].
  cbn. now destruct (f (g x)).
Qed.

Lemma find_ext_eq {A : Type} (f g : A -> bool) (l : list A) :
  (forall x, f x = g x) -> find f l = find g l.
Proof.
  intro H. induction l as [| x l IH]; [reflexivity |].
  cbn. now rewrite H, IH.
Qed.

Lemma singleton_of_all_equal (l : list string) (t : string) :
  NoDup l -> (forall c, In c l -> c = t) -> In t l -> l = [t].
Proof.
  intros Hnd Hall Hin. destruct l as [| x [| y l]]; [contradiction | |].
  - now rewrite (Hall x (or_introl eq_refl)).
  - exfalso. inversion Hnd as [| ? ? Hx _]; subst. apply Hx.
    rewrite (Hall x), (Hall y); cbn; auto.
Qed.

Lemma length_one_nth {A : Type} (l : list A) (d : A) :
  length l = 1 -> l = [nth 0 l d].
Proof. destruct l as [| x [| y l]]; try discriminate. reflexivity. Qed.

Lemma remove_at_length {A : Type} (j : nat) (l : list A) :
  j < length l -> length (remove_at j l) = length l - 1.
Proof.
  intro H. unfold remove_at.
  rewrite length_app, length_firstn, length_skipn. lia.
Qed.

Lemma get_loc_lt (cols : list string) (c : string) (j : nat) :
  get_loc cols c = Some j -> j < length cols.
Proof. intro H. apply get_loc_nth in H. apply nth_error_Some. congruence. Qed.

Lemma nth_remove_at_loc {A : Type} (j jt q : nat) (r : list A) (d : A) :
  jt <> j -> q = (if Nat.ltb jt j then jt else jt - 1) ->
  nth q (remove_at j r) d = nth jt r d.
Proof.
  intros Hne ->. rewrite nth_remove_at.
  destruct (Nat.ltb jt j) eqn:E; [now rewrite E |].
  apply Nat.ltb_ge in E.
  replace (Nat.ltb (jt - 1) j) with false by (symmetry; apply Nat.ltb_ge; lia).
  f_equal. lia.
Qed.

Lemma getitem_list_inr (df : DataFrame) (labels : list string) :
  (forall c, In c labels -> In c (columns df)) ->
  exists view, pd.getitem_list df labels = inr view.
Proof.
  intro H. unfold pd.getitem_list.
  rewrite filter_all_false; [now eexists |].
  intros c Hc. apply H in Hc. apply contains_In in Hc. now rewrite Hc.
Qed.

Lemma unmatched_records_no_error (merged : DataFrame)
  (merge_column target_column : string) (target : Series) (body : string) :
  In merge_column (columns merged) ->
  ~ In (Error body) (unmatched_records merged merge_column target_column target).
Proof.
  intros Hmc. unfold unmatched_records, unmatched_view.
  destruct (Nat.ltb 0 (pd.sum (pd.isna target))); [| tauto].
  destruct (getitem_list_inr (pd.getitem_mask merged (pd.isna target))
              ([merge_column]
               ++ filter (fun col => negb (String.eqb col target_column))
                         (columns merged))) as [view ->].
  - cbn [app columns pd.getitem_mask]. intros c [<- | Hc]; [exact Hmc |].
    apply filter_In in Hc. tauto.
  - cbn. intuition discriminate.
Qed.

Section ValidUploads.

Variables (P B : DataFrame) (merge_column target_column : string).
Variables (i jB jtB : nat).

Hypothesis labels_B : NoDup (columns B).
Hypothesis key_A : get_loc (columns P) merge_column = Some i.
Hypothesis key_B : get_loc (columns B) merge_column = Some jB.
Hypothesis target_B : get_loc (columns B) target_column = Some jtB.
Hypothesis target_new : ~ In target_column (columns P).

Lemma target_not_key : target_column <> merge_column.
Proof.
  intros E. apply target_new. rewrite E. eapply get_loc_Some_In, key_A.
Qed.

Lemma valid_uploads_merged :
  exists df_b S',
    pd.read_excel (Spreadsheet B) (Some [merge_column; target_column]) = inr df_b /\
    pd.drop_duplicates df_b merge_column = inr S' /\
    pd.merge P S' merge_column
    = inr {| columns := columns P ++ [target_column];
             rows := map (fun l => l ++ [looked_up B i jB jtB l]) (rows P) |}.
Proof.
  pose proof target_not_key as Hne.
  assert (Hbm : In merge_column (columns B)) by (eapply get_loc_Some_In, key_B).
  assert (Hbt : In target_column (columns B)) by (eapply get_loc_Some_In, target_B).
  destruct (read_excel_usecols_inr B _ _ Hbm Hbt) as [df_b Eb].
  assert (Hmc : In merge_column (columns df_b))
    by (apply (read_excel_usecols _ _ _ _ Eb); simpl; auto).
  assert (Htc : In target_column (columns df_b))
    by (apply (read_excel_usecols _ _ _ _ Eb); simpl; auto).
  destruct (get_loc_In _ _ Hmc) as [j Hj].
  destruct (get_loc_In _ _ Htc) as [jt Hjt].
  destruct (read_excel_usecols_projection _ _ _ labels_B Eb) as [g [Hrows [Hlen Hval]]].
  assert (Hright : remove_at j (columns df_b) = [target_column]).
  { apply singleton_of_all_equal.
    - apply NoDup_remove_at. rewrite (read_excel_usecols_columns _ _ _ Eb).
      now apply NoDup_filter.
    - intros c Hc.
      now destruct (usecols_right_columns B df_b _ _ j c labels_B Eb Hj Hc).
    - apply (In_remove_at_other j _ merge_column);
        [exact Htc | now apply get_loc_nth | exact Hne]. }
  destruct (get_loc_remove_at _ _ _ _ _ Hj Hjt Hne) as [Hq Hjtj].
  rewrite Hright in Hq. cbn in Hq. rewrite String.eqb_refl in Hq.
  injection Hq as Hq.
  assert (Hcols : length (columns df_b) = 2).
  { pose proof (remove_at_length j (columns df_b) (get_loc_lt _ _ _ Hj)) as H.
    rewrite Hright in H. cbn in H. pose proof (get_loc_lt _ _ _ Hj). lia. }
  exists df_b. eexists. split; [exact Eb |].
  split; [apply drop_duplicates_loc, Hj |].
  rewrite (merge_disjoint P (mkDataFrame (columns df_b)
                                         (pd.drop_duplicate_rows j [] (rows df_b)))
             merge_column i j key_A Hj).
  2:{ cbn [columns]. rewrite Hright. intros c Hc [<- | []]. contradiction. }
  cbn [columns rows]. rewrite Hright. f_equal. f_equal.
  induction (rows P) as [| l ls IH]; [reflexivity |].
  cbn [flat_map map]. rewrite IH, join_row_drop_duplicates. cbn [app].
  f_equal. f_equal. unfold looked_up.
  rewrite Hrows, find_map.
  rewrite (find_ext_eq (fun x => cell_eqb (at_col j (g x)) (at_col i l))
                       (fun r => cell_eqb (at_col jB r) (at_col i l)))
    by (intro r; now rewrite (Hval merge_column j jB Hj key_B r)).
  destruct (find (fun r => cell_eqb (at_col jB r) (at_col i l)) (rows B)) as [r |];
    [| reflexivity].
  cbn [option_map].
  rewrite (length_one_nth (remove_at j (g r)) NaN).
  2:{ rewrite remove_at_length; rewrite Hlen, Hcols; [reflexivity |].
      pose proof (get_loc_lt _ _ _ Hj). lia. }
  f_equal. rewrite (nth_remove_at_loc j jt 0 (g r) NaN Hjtj Hq).
  apply (Hval target_column jt jtB Hjt target_B r).
Qed.

End ValidUploads.

Lemma getitem_added_column (P : DataFrame) (t : string) (v : list cell -> cell) :
  rectangular P -> ~ In t (columns P) ->
  pd.getitem {| columns := columns P ++ [t];
                rows := map (fun l => l ++ [v l]) (rows P) |} t
  = inr (map v (rows P)).
Proof.
  intros Hrect Hno. unfold pd.getitem. cbn [columns rows].
  rewrite (get_loc_app_r (columns P) [t] t 0 Hno)
    by (cbn; now rewrite String.eqb_refl).
  f_equal. rewrite map_map. induction Hrect as [| l ls Hl _ IH]; [reflexivity |].
  cbn [map]. rewrite IH. f_equal.
  unfold at_col. rewrite <- Hl, app_nth2_plus. reflexivity.
Qed.

Lemma valid_uploads_main (P B : DataFrame) (merge_column target_column : string)
  (i jB jtB : nat) :
  NoDup (columns B) -> rectangular P ->
  get_loc (columns P) merge_column = Some i ->
  get_loc (columns B) merge_column = Some jB ->
  get_loc (columns B) target_column = Some jtB ->
  ~ In target_column (columns P) ->
  exists df_b,
    pd.read_excel (Spreadsheet B) (Some [merge_column; target_column]) = inr df_b /\
    main (Some (Spreadsheet P)) (Some (Spreadsheet B))
         merge_column target_column true
    = (file_information P df_b
       ++ merge_results
            {| columns := columns P ++ [target_column];
               rows := map (fun l => l ++ [looked_up B i jB jtB l]) (rows P) |}
            (pd.sum (pd.notna (map (looked_up B i jB jtB) (rows P))))
            (pd.sum (pd.isna (map (looked_up B i jB jtB) (rows P))))
       ++ unmatched_records
            {| columns := columns P ++ [target_column];
               rows := map (fun l => l ++ [looked_up B i jB jtB l]) (rows P) |}
            merge_column target_column
            (map (looked_up B i jB jtB) (rows P)),
       Return tt).
Proof.
  intros Hnd Hrect Hi HjB HjtB Hno.
  destruct (valid_uploads_merged P B merge_column target_column i jB jtB
              Hnd Hi HjB HjtB Hno) as [df_b [S' [Eb [Hd Hm]]]].
  pose proof (getitem_added_column P target_column (looked_up B i jB jtB)
                Hrect Hno) as Ht.
  set (merged := {| columns := columns P ++ [target_column];
                    rows := map (fun l => l ++ [looked_up B i jB jtB l]) (rows P) |})
    in *.
  exists df_b. split; [exact Eb |].
  pose proof (main_run P (Spreadsheet B) merge_column target_column) as Hrun.
  remember (main _ _ _ _ _) as r eqn:Er. clear Er.
  destruct Hrun as [e He | S He Ha' | S T e He Ha' Hd' Hm'
                   | S T mg e He Ha' Hd' Hm' Ht'
                   | S T mg target He Ha' Hd' Hm' Ht'].
  - congruence.
  - apply contains_not_In in Ha'. exfalso. apply Ha'.
    eapply get_loc_Some_In, Hi.
  - assert (S = df_b) by congruence. subst S.
    assert (T = S') by congruence. subst T. congruence.
  - assert (S = df_b) by congruence. subst S.
    assert (T = S') by congruence. subst T.
    assert (mg = merged) by congruence. subst mg. congruence.
  - assert (S = df_b) by congruence. subst S.
    assert (T = S') by congruence. subst T.
    assert (mg = merged) by congruence. subst mg.
    assert (target = map (looked_up B i jB jtB) (rows P)) by congruence.
    subst target. reflexivity.
Qed.





(** ** The table of unmatched records *)

Lemma filter_combine_map {A : Type} (f : A -> bool) (l : list A) :
  map fst (filter snd (combine l (map f l))) = filter f l.
Proof.
  induction l as [| x l IH]; [reflexivity |].
  cbn. destruct (f x); cbn; now rewrite IH.
Qed.

Lemma unmatched_view_inr (merged view : DataFrame)
  (merge_column target_column : string) (it : nat) :
  get_loc (columns merged) target_column = Some it ->
  unmatched_view merged merge_column target_column
                 (map (at_col it) (rows merged)) = inr view ->
  columns view
  = merge_column
    :: filter (fun col => negb (String.eqb col target_column)) (columns merged) /\
  rows view
  = map (fun r =>
           map (fun c => at_col (match get_loc (columns merged) c with
                                 | Some n => n
                                 | None => 0
                                 end) r)
               (columns view))
        (filter (fun r => isna (at_col it r)) (rows merged)).
Proof.
  intros Hit. unfold unmatched_view, pd.getitem_list.
  destruct (filter _ _); [| discriminate].
  intro H. injection H as <-. cbn [columns rows pd.getitem_mask app].
  split; [reflexivity |]. f_equal.
  unfold pd.isna. rewrite map_map. apply filter_combine_map.
Qed.



(** ** The target column set to the reference column *)

Lemma same_column_merged (P B : DataFrame) (merge_column : string) (i : nat) :
  NoDup (columns B) ->
  get_loc (columns P) merge_column = Some i ->
  In merge_column (columns B) ->
  exists df_b S',
    pd.read_excel (Spreadsheet B) (Some [merge_column; merge_column]) = inr df_b /\
    pd.drop_duplicates df_b merge_column = inr S' /\
    pd.merge P S' merge_column = inr P.
Proof.
  intros Hnd Hi Hb.
  destruct (read_excel_usecols_inr B _ _ Hb Hb) as [df_b Eb].
  assert (Hmc : In merge_column (columns df_b))
    by (apply (read_excel_usecols _ _ _ _ Eb); simpl; auto).
  destruct (get_loc_In _ _ Hmc) as [j Hj].
  destruct (read_excel_usecols_projection _ _ _ Hnd Eb) as [g [Hrows [Hlen _]]].
  assert (Hright : remove_at j (columns df_b) = []).
  { destruct (remove_at j (columns df_b)) as [| c l] eqn:E; [reflexivity |].
    destruct (usecols_right_columns B df_b _ _ j c Hnd Eb Hj) as [H1 H2];
      [rewrite E; now left | contradiction]. }
  assert (Hcols : length (columns df_b) = 1).
  { pose proof (remove_at_length j (columns df_b) (get_loc_lt _ _ _ Hj)) as H.
    rewrite Hright in H. cbn in H. pose proof (get_loc_lt _ _ _ Hj). lia. }
  exists df_b. eexists. split; [exact Eb |].
  split; [apply drop_duplicates_loc, Hj |].
  rewrite (merge_disjoint P (mkDataFrame (columns df_b)
                                         (pd.drop_duplicate_rows j [] (rows df_b)))
             merge_column i j Hi Hj).
  2:{ cbn [columns]. rewrite Hright. intros c _ []. }
  cbn [columns rows]. rewrite Hright, app_nil_r. cbn [length].
  destruct P as [cols rs]. cbn [columns rows] in *. f_equal. f_equal.
  induction rs as [| l ls IH]; [reflexivity |].
  cbn [flat_map]. rewrite IH, join_row_drop_duplicates. cbn [app]. f_equal.
  destruct (find (fun r => cell_eqb (at_col j r) (at_col i l)) (rows df_b))
    as [r |] eqn:Ef; [| apply app_nil_r].
  apply find_some in Ef. destruct Ef as [Hr _].
  rewrite Hrows in Hr. apply in_map_iff in Hr. destruct Hr as [r0 [<- _]].
  assert (Hnil : remove_at j (g r0) = []).
  { apply length_zero_iff_nil.
    pose proof (get_loc_lt _ _ _ Hj) as Hlt.
    rewrite remove_at_length; rewrite Hlen, Hcols; [reflexivity | lia]. }
  rewrite Hnil. apply app_nil_r.
Qed.



(** ** The file information *)

Lemma usecols_width (B df_b : DataFrame) (merge_column target_column : string) :
  NoDup (columns B) ->
  pd.read_excel (Spreadsheet B) (Some [merge_column; target_column]) = inr df_b ->
  shape1 df_b = if String.eqb target_column merge_column then 1 else 2.
Proof.
  intros Hnd Eb.
  assert (Hmc : In merge_column (columns df_b))
    by (apply (read_excel_usecols _ _ _ _ Eb); simpl; auto).
  assert (Htc : In target_column (columns df_b))
    by (apply (read_excel_usecols _ _ _ _ Eb); simpl; auto).
  destruct (get_loc_In _ _ Hmc) as [j Hj].
  pose proof (remove_at_length j (columns df_b) (get_loc_lt _ _ _ Hj)) as Hlen.
  pose proof (get_loc_lt _ _ _ Hj) as Hlt.
  unfold shape1.
  destruct (String.eqb_spec target_column merge_column) as [E | Hne].
  - assert (Hright : remove_at j (columns df_b) = []).
    { destruct (remove_at j (columns df_b)) as [| c l] eqn:Er; [reflexivity |].
      destruct (usecols_right_columns B df_b _ _ j c Hnd Eb Hj) as [H1 H2];
        [rewrite Er; now left | congruence]. }
    rewrite Hright in Hlen. cbn in Hlen. lia.
  - assert (Hright : remove_at j (columns df_b) = [target_column]).
    { apply singleton_of_all_equal.
      - apply NoDup_remove_at. rewrite (read_excel_usecols_columns _ _ _ Eb).
        now apply NoDup_filter.
      - intros c Hc.
        now destruct (usecols_right_columns B df_b _ _ j c Hnd Eb Hj Hc).
      - apply (In_remove_at_other j _ merge_column);
          [exact Htc | now apply get_loc_nth | exact Hne]. }
    rewrite Hright in Hlen. cbn in Hlen. lia.
Qed.



(** ** An error ends the page *)

Lemma split_at_error (l1 t0 before after : list element) (b b0 : string) :
  forallb (fun x => negb (is_error x)) l1 = true ->
  forallb (fun x => negb (is_error x)) t0 = true ->
  before ++ Error b :: after = l1 ++ Error b0 :: t0 ->
  after = t0 /\ b = b0.
Proof.
  intros H1 H0. revert before.
  induction l1 as [| y l1 IH]; intros [| x before] H; cbn in H.
  - injection H as -> ->. now split.
  - injection H as -> H. exfalso.
    assert (Hin : In (Error b) t0) by (rewrite <- H; apply in_elt).
    rewrite forallb_forall in H0. specialize (H0 _ Hin). discriminate.
  - injection H as <- _. cbn in H1. discriminate.
  - injection H as -> H. cbn in H1. apply andb_prop in H1.
    apply (IH (proj2 H1) before H).
Qed.

Lemma error_free_split (l before after : list element) (b : string) :
  forallb (fun x => negb (is_error x)) l = true ->
  l <> before ++ Error b :: after.
Proof.
  intros H ->. rewrite forallb_app in H. cbn in H.
  now rewrite andb_false_r in H.
Qed.

Lemma unmatched_records_errors (merged : DataFrame)
  (merge_column target_column : string) (target : Series) :
  forallb (fun x => negb (is_error x))
          (unmatched_records merged merge_column target_column target) = true \/
  exists l b0,
    unmatched_records merged merge_column target_column target
    = l :: Error b0
        :: [Info "Please make sure your files are valid Excel files and contain the specified columns."]
    /\ is_error l = false.
Proof.
  unfold unmatched_records.
  destruct (Nat.ltb 0 (pd.sum (pd.isna target))); [| now left].
  destruct (unmatched_view merged merge_column target_column target) as [e | view].
  - right. eexists. eexists. split; reflexivity.
  - now left.
Qed.

(** Where the errors of a run are: nowhere, or at one place, after
    which comes nothing or the advice of the [except] clause. *)
Lemma rendered_errors (file_a file_b : option UploadedFile)
  (merge_column target_column : string) (start_processing : bool) :
  forallb (fun x => negb (is_error x))
          (rendered (main file_a file_b merge_column target_column
                          start_processing)) = true \/
  exists l1 b0 t0,
    rendered (main file_a file_b merge_column target_column start_processing)
    = l1 ++ Error b0 :: t0 /\
    forallb (fun x => negb (is_error x)) l1 = true /\
    (t0 = [] \/
     t0 = [Info "Please make sure your files are valid Excel files and contain the specified columns."]).
Proof.
  destruct start_processing, file_a as [a |], file_b as [b |];
    try (left; reflexivity).
  destruct a as [msg | P].
  { right. rewrite main_malformed. exists [].
    eexists. eexists. split; [reflexivity |]. split; [reflexivity | now right]. }
  pose proof (main_run P b merge_column target_column) as Hrun.
  remember (main _ _ _ _ _) as r eqn:Er. clear Er.
  destruct Hrun as [e He | S He Ha | S S' e He Ha Hd Hm | S S' merged e He Ha Hd Hm Ht
                   | S S' merged target He Ha Hd Hm Ht];
    cbn [rendered fst].
  - right. exists []. eexists. eexists.
    split; [reflexivity |]. split; [reflexivity | now right].
  - right. exists (file_information P S). eexists. eexists.
    split; [reflexivity |]. split; [reflexivity | now left].
  - right. exists (file_information P S). eexists. eexists.
    split; [reflexivity |]. split; [reflexivity | now right].
  - right.
    exists (file_information P S
            ++ [Subheader "✅ Merge Results"; Metric "Total Rows" (shape0 merged)]).
    eexists. eexists.
    split; [rewrite <- app_assoc; reflexivity |].
    split; [reflexivity | now right].
  - destruct (unmatched_records_errors merged merge_column target_column target)
      as [H | [l [b0 [-> Hl]]]].
    + left. rewrite !forallb_app, H. reflexivity.
    + right.
      exists (file_information P S
              ++ merge_results merged (pd.sum (pd.notna target))
                               (pd.sum (pd.isna target))
              ++ [l]).
      exists b0. eexists.
      split; [rewrite <- !app_assoc; reflexivity |].
      split; [| now right].
      rewrite !forallb_app. cbn. now rewrite Hl.
Qed.




